(** * API key logic of textbee: generation, masked storage, prefix lookup, bcrypt check

    Shallow embedding of [api/test_api_key_logic.js].  The script generates an
    API key, hashes it, stores a masked copy in a mock database document and
    then validates an incoming key against that document: a regular
    expression built from the first 17 characters selects the document, and
    [bcrypt.compareSync] decides.

    JavaScript strings are modelled as [string] (code units restricted to the
    8-bit range), [String.prototype.substr] as [substring], the regular
    expression engine by a parser and a backtracking matcher for the pattern
    fragment described in [RegExp], and bcrypt as a pair of functions the
    development is parametric in. *)

From Stdlib Require Import String Ascii List Bool Arith Lia.
Import ListNotations.

Local Open Scope string_scope.
Local Open Scope bool_scope.

(** ** JavaScript string primitives used by the script *)

Module Js.

(** [s.substr(start, len)]: at most [len] characters from [start]; shorter
    when the string ends first. *)
Definition substr (s : string) (start len : nat) : string :=
  substring start len s.

(** [s.repeat(n)]. *)
Fixpoint repeat (s : string) (n : nat) : string :=
  match n with
  | O => ""
  | S n' => s ++ repeat s n'
  end.

(** [s.startsWith(p)]. *)
Fixpoint startsWith (s p : string) : bool :=
  match p, s with
  | "", _ => true
  | String _ _, "" => false
  | String x p', String y s' => Ascii.eqb y x && startsWith s' p'
  end.

(** [s.includes(t)]: [t] occurs in [s] as a contiguous substring. *)
Fixpoint includes (s t : string) : bool :=
  startsWith s t ||
  match s with
  | "" => false
  | String _ s' => includes s' t
  end.

(** Every character of [s] satisfies [p]. *)
Fixpoint every (p : ascii -> bool) (s : string) : bool :=
  match s with
  | "" => true
  | String c s' => p c && every p s'
  end.

(** Some character of [s] satisfies [p]. *)
Fixpoint some (p : ascii -> bool) (s : string) : bool :=
  match s with
  | "" => false
  | String c s' => p c || some p s'
  end.

End Js.

(** ** Regular expressions: [new RegExp(pattern, 'g')] and [regex.test(s)]

    The fragment covered: alternation, sequencing, capturing and [(?:]
    groups, the quantifiers [*], [+], [?] and their lazy forms, [.], the
    assertions [^] and [$] (no multiline flag), character classes of single
    characters and ranges, the class escapes [\d \w \s \D \W \S], the control
    escapes [\t \n \v \f \r] and identity escapes.  Counted quantifiers,
    look-around, back-references, word boundaries and the remaining escapes
    are reported as [Unmodelled]: nothing is claimed about patterns that use
    them. *)

Module RegExp.

Inductive class_item : Type :=
| Single (c : ascii)
| Range (lo hi : ascii)
| Digit
| Word
| Space.

Inductive node : Type :=
| Empty
| Char (c : ascii)
| AnyChar
| CharSet (negated : bool) (items : list class_item)
| AssertStart
| AssertEnd
| Seq (a b : node)
| Alt (a b : node)
| Star (a : node)
| Plus (a : node)
| Opt (a : node)
| Group (a : node).

(** What the constructor does with a pattern. *)
Inductive compiled : Type :=
| SyntaxError
| Unmodelled
| Pattern (r : node).

(** *** Character classification *)

Inductive ctype : Type :=
| CBackslash | CLParen | CRParen | CLBrack | CRBrack | CLBrace | CRBrace
| CStar | CPlus | CQuest | CBar | CDot | CCaret | CDollar | COther.

Definition ctype_of (c : ascii) : ctype :=
  if Ascii.eqb c "\" then CBackslash
  else if Ascii.eqb c "(" then CLParen
  else if Ascii.eqb c ")" then CRParen
  else if Ascii.eqb c "[" then CLBrack
  else if Ascii.eqb c "]" then CRBrack
  else if Ascii.eqb c "{" then CLBrace
  else if Ascii.eqb c "}" then CRBrace
  else if Ascii.eqb c "*" then CStar
  else if Ascii.eqb c "+" then CPlus
  else if Ascii.eqb c "?" then CQuest
  else if Ascii.eqb c "|" then CBar
  else if Ascii.eqb c "." then CDot
  else if Ascii.eqb c "^" then CCaret
  else if Ascii.eqb c "$" then CDollar
  else COther.

(** SyntaxCharacter of the pattern grammar: one of [^ $ \ . * + ? ( ) [ ] { } |]. *)
Definition is_syntax_char (c : ascii) : bool :=
  match ctype_of c with
  | COther => false
  | _ => true
  end.

Definition in_range (lo hi c : ascii) : bool :=
  Nat.leb (nat_of_ascii lo) (nat_of_ascii c) && Nat.leb (nat_of_ascii c) (nat_of_ascii hi).

Definition is_digit (c : ascii) : bool := in_range "0" "9" c.

Definition is_word (c : ascii) : bool :=
  in_range "a" "z" c || in_range "A" "Z" c || is_digit c || Ascii.eqb c "_".

(** White space and line terminators below U+0100. *)
Definition is_space (c : ascii) : bool :=
  in_range "009" "013" c || Ascii.eqb c " " || Ascii.eqb c "160".

Definition is_line_terminator (c : ascii) : bool :=
  Ascii.eqb c "010" || Ascii.eqb c "013".

Definition item_has (c : ascii) (i : class_item) : bool :=
  match i with
  | Single x => Ascii.eqb c x
  | Range lo hi => in_range lo hi c
  | Digit => is_digit c
  | Word => is_word c
  | Space => is_space c
  end.

(** *** Matching *)

Definition cont : Type := bool -> string -> bool.

(** Zero or more rounds of [step]; a round that consumes nothing is not
    repeated. *)
Fixpoint iterate (step : bool -> string -> cont -> bool) (fuel : nat)
    (start : bool) (s : string) (k : cont) : bool :=
  k start s ||
  match fuel with
  | O => false
  | S fuel' =>
      step start s
        (fun start' s' =>
           Nat.ltb (String.length s') (String.length s) && iterate step fuel' start' s' k)
  end.

(** [run r start s k]: [r] matches a prefix of [s] and [k] accepts what is
    left; [start] tells whether the position is index 0 of the input. *)
Fixpoint run (r : node) (start : bool) (s : string) (k : cont) {struct r} : bool :=
  match r with
  | Empty => k start s
  | Char c =>
      match s with
      | String x s' => Ascii.eqb x c && k false s'
      | "" => false
      end
  | AnyChar =>
      match s with
      | String x s' => negb (is_line_terminator x) && k false s'
      | "" => false
      end
  | CharSet negated items =>
      match s with
      | String x s' => xorb negated (existsb (item_has x) items) && k false s'
      | "" => false
      end
  | AssertStart => start && k start s
  | AssertEnd =>
      match s with
      | "" => k start s
      | String _ _ => false
      end
  | Seq a b => run a start s (fun start' s' => run b start' s' k)
  | Alt a b => run a start s k || run b start s k
  | Star a => iterate (run a) (String.length s) start s k
  | Plus a =>
      run a start s (fun start' s' => iterate (run a) (String.length s') start' s' k)
  | Opt a => k start s || run a start s k
  | Group a => run a start s k
  end.

(** Try every start index from the current one on. *)
Fixpoint search (r : node) (start : bool) (s : string) : bool :=
  run r start s (fun _ _ => true) ||
  match s with
  | "" => false
  | String _ s' => search r false s'
  end.

(** [regex.test(s)] on a freshly constructed object ([lastIndex] is 0, so the
    [g] flag does not change where the search begins). *)
Definition test (r : node) (s : string) : bool := search r true s.

(** *** Parsing a pattern *)

(** Whether the last term of the alternative can take a quantifier. *)
Inductive qstate : Type :=
| NoAtom       (* nothing to repeat *)
| Atom         (* an atom: a quantifier may follow *)
| Greedy       (* a quantifier: only the lazy mark [?] may follow *)
| Lazy.        (* a lazy quantifier: no quantifier may follow *)

(** An open group (or the top level): finished alternatives and the terms of
    the current one, both most recent first. *)
Record frame : Type := mkFrame {
  alts : list node;
  terms : list node;
  q : qstate
}.

Definition frame0 : frame := mkFrame [] [] NoAtom.

Definition seq_of (ts : list node) : node := fold_right Seq Empty ts.

Fixpoint alt_of (l : list node) : node :=
  match l with
  | [] => Empty
  | [a] => a
  | a :: l' => Alt a (alt_of l')
  end.

Definition close (f : frame) : node :=
  alt_of (rev (seq_of (rev (terms f)) :: alts f)).

Definition push_atom (f : frame) (a : node) : frame :=
  mkFrame (alts f) (a :: terms f) Atom.

Definition push_assert (f : frame) (a : node) : frame :=
  mkFrame (alts f) (a :: terms f) NoAtom.

Definition next_alt (f : frame) : frame :=
  mkFrame (seq_of (rev (terms f)) :: alts f) [] NoAtom.

(** A quantifier [*], [+] or [?] applied to the last atom. *)
Definition quantify (f : frame) (wrap : node -> node) : option frame :=
  match q f, terms f with
  | Atom, t :: ts => Some (mkFrame (alts f) (wrap t :: ts) Greedy)
  | _, _ => None
  end.

(** The atom a backslash and the next character stand for. *)
Definition escape (e : ascii) : option node :=
  if Ascii.eqb e "d" then Some (CharSet false [Digit])
  else if Ascii.eqb e "D" then Some (CharSet true [Digit])
  else if Ascii.eqb e "w" then Some (CharSet false [Word])
  else if Ascii.eqb e "W" then Some (CharSet true [Word])
  else if Ascii.eqb e "s" then Some (CharSet false [Space])
  else if Ascii.eqb e "S" then Some (CharSet true [Space])
  else if Ascii.eqb e "t" then Some (Char "009")
  else if Ascii.eqb e "n" then Some (Char "010")
  else if Ascii.eqb e "v" then Some (Char "011")
  else if Ascii.eqb e "f" then Some (Char "012")
  else if Ascii.eqb e "r" then Some (Char "013")
  else if Ascii.eqb e "b" || Ascii.eqb e "B" || Ascii.eqb e "c"
          || Ascii.eqb e "x" || Ascii.eqb e "u" || Ascii.eqb e "k"
          || is_digit e
       then None
  else Some (Char e).

Inductive mode : Type :=
| Normal
| InClass (negated : bool) (items : list class_item).

Fixpoint parse (stack : list frame) (f : frame) (m : mode) (p : string)
    {struct p} : compiled :=
  match m with
  | Normal =>
      match p with
      | "" =>
          match stack with
          | [] => Pattern (close f)
          | _ :: _ => SyntaxError                     (* unterminated group *)
          end
      | String c rest =>
          match ctype_of c with
          | CBackslash =>
              match rest with
              | "" => SyntaxError                     (* \ at end of pattern *)
              | String e rest' =>
                  match escape e with
                  | Some a => parse stack (push_atom f a) Normal rest'
                  | None => Unmodelled
                  end
              end
          | CLParen =>
              match rest with
              | String x (String y rest') =>
                  if Ascii.eqb x "?" then
                    if Ascii.eqb y ":" then parse (f :: stack) frame0 Normal rest'
                    else Unmodelled
                  else parse (f :: stack) frame0 Normal rest
              | String x "" =>
                  if Ascii.eqb x "?" then Unmodelled
                  else parse (f :: stack) frame0 Normal rest
              | "" => SyntaxError                     (* unterminated group *)
              end
          | CRParen =>
              match stack with
              | [] => SyntaxError                     (* unmatched ')' *)
              | g :: stack' =>
                  parse stack' (push_atom g (Group (close f))) Normal rest
              end
          | CLBrack =>
              match rest with
              | String x rest' =>
                  if Ascii.eqb x "^" then parse stack f (InClass true []) rest'
                  else parse stack f (InClass false []) rest
              | "" => SyntaxError                     (* unterminated class *)
              end
          | CLBrace => Unmodelled
          | CStar =>
              match quantify f Star with
              | Some f' => parse stack f' Normal rest
              | None => SyntaxError                   (* nothing to repeat *)
              end
          | CPlus =>
              match quantify f Plus with
              | Some f' => parse stack f' Normal rest
              | None => SyntaxError
              end
          | CQuest =>
              match q f with
              | Greedy => parse stack (mkFrame (alts f) (terms f) Lazy) Normal rest
              | _ =>
                  match quantify f Opt with
                  | Some f' => parse stack f' Normal rest
                  | None => SyntaxError
                  end
              end
          | CBar => parse stack (next_alt f) Normal rest
          | CDot => parse stack (push_atom f AnyChar) Normal rest
          | CCaret => parse stack (push_assert f AssertStart) Normal rest
          | CDollar => parse stack (push_assert f AssertEnd) Normal rest
          | CRBrack | CRBrace | COther =>
              parse stack (push_atom f (Char c)) Normal rest
          end
      end
  | InClass negated items =>
      match p with
      | "" => SyntaxError                             (* unterminated class *)
      | String c rest =>
          if Ascii.eqb c "]" then
            parse stack (push_atom f (CharSet negated (rev items))) Normal rest
          else if Ascii.eqb c "\" then
            match rest with
            | "" => SyntaxError
            | String _ _ => Unmodelled
            end
          else
            match rest with
            | String d (String e rest') =>
                if Ascii.eqb d "-" && negb (Ascii.eqb e "]") then
                  if Ascii.eqb e "\" then Unmodelled
                  else if Nat.leb (nat_of_ascii c) (nat_of_ascii e) then
                    parse stack f (InClass negated (Range c e :: items)) rest'
                  else SyntaxError                    (* range out of order *)
                else parse stack f (InClass negated (Single c :: items)) rest
            | _ => parse stack f (InClass negated (Single c :: items)) rest
            end
      end
  end.

(** [new RegExp(pattern, 'g')]. *)
Definition new (pattern : string) : compiled :=
  parse [] frame0 Normal pattern.

(** The pattern is plain text: no character of it is a syntax character. *)
Definition plain (p : string) : bool :=
  Js.every (fun c => negb (is_syntax_char c)) p.

(** The terms a plain text parses to: one [Char] for each character. *)
Fixpoint literal (p : string) : list node :=
  match p with
  | "" => []
  | String c p' => Char c :: literal p'
  end.

End RegExp.

(** ** The [uuid] package: shape of [uuidv4()] results *)

Module Uuid.

(** The version 4 layout: [x] is a hexadecimal digit, [y] one of [8 9 a b],
    the hyphens and the version digit [4] stand for themselves. *)
Definition template : string := "xxxxxxxx-xxxx-4xxx-yxxx-xxxxxxxxxxxx".

Definition is_hex (c : ascii) : bool :=
  RegExp.in_range "0" "9" c || RegExp.in_range "a" "f" c.

Definition is_variant (c : ascii) : bool :=
  Ascii.eqb c "8" || Ascii.eqb c "9" || Ascii.eqb c "a" || Ascii.eqb c "b".

Definition slot (t c : ascii) : bool :=
  if Ascii.eqb t "x" then is_hex c
  else if Ascii.eqb t "y" then is_variant c
  else Ascii.eqb c t.

Fixpoint fits (tpl s : string) : bool :=
  match tpl, s with
  | "", "" => true
  | String t tpl', String c s' => slot t c && fits tpl' s'
  | _, _ => false
  end.

(** The strings [uuidv4()] can return. *)
Definition is_v4 (s : string) : bool := fits template s.

End Uuid.

(** ** The [bcryptjs] package: shape of [bcrypt.hash] results *)

Module Bcrypt.

(** Characters of a modular-crypt bcrypt string: the [$] separators and the
    radix-64 alphabet [./A-Za-z0-9]. *)
Definition is_digest_char (c : ascii) : bool :=
  Ascii.eqb c "$" || Ascii.eqb c "." || Ascii.eqb c "/"
  || RegExp.in_range "A" "Z" c || RegExp.in_range "a" "z" c
  || RegExp.in_range "0" "9" c.

(** A bcrypt string has 60 characters: [$2a$], the two-digit cost, [$], 22
    characters of salt and 31 of hash. *)
Definition is_digest (h : string) : bool :=
  Nat.eqb (String.length h) 60 && Js.every is_digest_char h.

End Bcrypt.

(** ** The script *)

(** The mock database document of the script. *)
Record ApiKeyDoc : Type := mkApiKeyDoc {
  doc_apiKey : string;          (* apiKey: the masked key *)
  doc_hashedApiKey : string;    (* hashedApiKey *)
  doc_revokedAt : option nat    (* revokedAt: null, or a date *)
}.

(** The final console line of a run that completes. *)
Inductive verdict : Type :=
| Success        (* SUCCESS: API Key Verified *)
| BcryptFailed   (* FAILURE: Bcrypt failed *)
| RegexFailed.   (* FAILURE: Regex failed to find document *)

Definition message (v : verdict) : string :=
  match v with
  | Success => "SUCCESS: API Key Verified"
  | BcryptFailed => "FAILURE: Bcrypt failed"
  | RegexFailed => "FAILURE: Regex failed to find document"
  end.

(** How the validation ends: with a verdict, with the [SyntaxError] that
    [new RegExp] throws, or outside the modelled pattern fragment. *)
Inductive completion : Type :=
| Logged (v : verdict)
| Throws
| NotModelled.

(** The calls the validation makes on its collaborators, in order. *)
Inductive event : Type :=
| DbFind (pattern : string) (isMatch : bool)              (* regex.test(doc.apiKey) *)
| BcryptCompare (secret digest : string) (isValid : bool). (* bcrypt.compareSync *)

Definition is_DbFind (e : event) : bool :=
  match e with DbFind _ _ => true | BcryptCompare _ _ _ => false end.

Definition is_BcryptCompare (e : event) : bool :=
  match e with DbFind _ _ => false | BcryptCompare _ _ _ => true end.

(** Number of store lookups, respectively hash comparisons, in a trace. *)
Definition storeCalls (t : list event) : nat := List.length (filter is_DbFind t).
Definition hashCalls (t : list event) : nat := List.length (filter is_BcryptCompare t).

(** Verification outcome as the specification names it. *)
Definition isInvalid (c : completion) : bool :=
  match c with
  | Logged BcryptFailed | Logged RegexFailed => true
  | _ => false
  end.

Section TestApiKeyLogic.

(** [bcrypt.hash(s, rounds)] with the salt it draws, and
    [bcrypt.compareSync(s, digest)]. *)
Variable Salt : Type.
Variable bcrypt_hash : string -> nat -> Salt -> string.
Variable bcrypt_compareSync : string -> string -> bool.

(** Line 12: [hashedApiKey = await bcrypt.hash(apiKey, 10)]. *)
Definition hashedApiKey (apiKey : string) (salt : Salt) : string :=
  bcrypt_hash apiKey 10 salt.

(** Line 15: [storedApiKey = apiKey.substr(0, 17) + '*'.repeat(18)]. *)
Definition storedApiKey (apiKey : string) : string :=
  Js.substr apiKey 0 17 ++ Js.repeat "*" 18.

(** Lines 19-23: the document written for a generated key. *)
Definition mockDbApiKey (apiKey : string) (salt : Salt) : ApiKeyDoc :=
  {| doc_apiKey := storedApiKey apiKey;
     doc_hashedApiKey := hashedApiKey apiKey salt;
     doc_revokedAt := None |}.

(** Line 30: [prefix = incomingApiKey.substr(0, 17)]. *)
Definition prefix (incomingApiKey : string) : string :=
  Js.substr incomingApiKey 0 17.

(** Line 32: [regex = new RegExp(`^${prefix}`, 'g')]. *)
Definition regex (incomingApiKey : string) : RegExp.compiled :=
  RegExp.new ("^" ++ prefix incomingApiKey).

(** Lines 26-51: validation of an incoming key against a document. *)
Definition validate (incomingApiKey : string) (doc : ApiKeyDoc)
  : list event * completion :=
  match regex incomingApiKey with
  | RegExp.SyntaxError => ([], Throws)
  | RegExp.Unmodelled => ([], NotModelled)
  | RegExp.Pattern r =>
      let pattern := "^" ++ prefix incomingApiKey in
      let isMatch := RegExp.test r (doc_apiKey doc) in
      if isMatch then
        let isValid := bcrypt_compareSync incomingApiKey (doc_hashedApiKey doc) in
        ([DbFind pattern true;
          BcryptCompare incomingApiKey (doc_hashedApiKey doc) isValid],
         Logged (if isValid then Success else BcryptFailed))
      else ([DbFind pattern false], Logged RegexFailed)
  end.

(** The script itself: the incoming key is the generated one (line 26). *)
Definition testApiKeyLogic (apiKey : string) (salt : Salt)
  : list event * completion :=
  validate apiKey (mockDbApiKey apiKey salt).

End TestApiKeyLogic.

(** Modelled from the spec: revocation (section 4.2, [Revoke]).  The script
    has no operation that revokes; its document only carries the
    [revokedAt] field.  Revoking sets [revokedAt] unless it is already set. *)
Definition Revoke (now : nat) (doc : ApiKeyDoc) : ApiKeyDoc :=
  match doc_revokedAt doc with
  | Some _ => doc
  | None =>
      {| doc_apiKey := doc_apiKey doc;
         doc_hashedApiKey := doc_hashedApiKey doc;
         doc_revokedAt := Some now |}
  end.

(** A deterministic stand-in for bcrypt, used to run the script on concrete
    keys: the digest has the bcrypt layout, and comparison recomputes it. *)
Module BcryptDouble.

Definition radix64 : string :=
  "./ABCDEFGHIJKLMNOPQRSTUVWXYZabcdefghijklmnopqrstuvwxyz0123456789".

Definition glyph (n : nat) : ascii :=
  match String.get n radix64 with
  | Some x => x
  | None => "."%char
  end.

(** A rolling state of 31 six-bit values; each character is mixed into the
    oldest one. *)
Fixpoint absorb (st : list nat) (s : string) : list nat :=
  match s with
  | "" => st
  | String c s' =>
      match st with
      | [] => []
      | h :: t => absorb (t ++ [(h * 33 + nat_of_ascii c + 1) mod 64]) s'
      end
  end.

Definition hash (s : string) (rounds : nat) (salt : unit) : string :=
  "$2a$10$N9qo8uLOickgx2ZMRZoMye"
  ++ string_of_list_ascii (map glyph (absorb (List.repeat 0 31) s)).

Definition compareSync (s digest : string) : bool :=
  String.eqb (hash s 10 tt) digest.

End BcryptDouble.

(** The leading slice the masked key keeps of the plaintext (its first 17
    characters, line 15). *)
Definition lookupPrefix (doc : ApiKeyDoc) : string :=
  Js.substr (doc_apiKey doc) 0 17.

(** A canonical version 4 key and the document the double writes for it. *)
Definition sampleKey : string := "123e4567-e89b-42d3-a456-426614174000".

Definition sampleDoc : ApiKeyDoc :=
  mockDbApiKey unit BcryptDouble.hash sampleKey tt.

(** The key with the character at index [i] replaced by [c]. *)
Fixpoint replaceAt (s : string) (i : nat) (c : ascii) : string :=
  match s, i with
  | "", _ => ""
  | String _ s', O => String c s'
  | String x s', S i' => String x (replaceAt s' i' c)
  end.

(** ** The bootstrap: text clean-up and the CORS origin check

    [bootstrap] of [api/src/main.ts] and of its earlier and later revisions.
    A global [replace] whose pattern is a fixed text, or a character class
    anchored at an end of the string, is modelled by the string function it
    computes. *)

Module Bootstrap.

(** The text of one line feed, ['\n'] in the script. *)
Definition NL : string := String "010" "".

Definition isDoubleQuote (c : ascii) : bool := Ascii.eqb c "034".
Definition isSingleQuote (c : ascii) : bool := Ascii.eqb c "'".
Definition isQuote (c : ascii) : bool := isDoubleQuote c || isSingleQuote c.
Definition isQuoteOrComma (c : ascii) : bool := isQuote c || Ascii.eqb c ",".
Definition isSlash (c : ascii) : bool := Ascii.eqb c "/".
Definition isBackslash (c : ascii) : bool := Ascii.eqb c "\".
Definition isLineFeed (c : ascii) : bool := Ascii.eqb c "010".

(** Truthiness of a string: the empty string is falsy. *)
Definition truthy (s : string) : bool :=
  match s with
  | "" => false
  | String _ _ => true
  end.

(** The first, respectively last, character of [s] is in [p]. *)
Definition firstIs (p : ascii -> bool) (s : string) : bool :=
  match s with
  | "" => false
  | String c _ => p c
  end.

Fixpoint lastIs (p : ascii -> bool) (s : string) : bool :=
  match s with
  | "" => false
  | String c "" => p c
  | String _ s' => lastIs p s'
  end.

(** [s.replace(/^[p]+/g, '')]: the leading run of [p] is removed. *)
Fixpoint dropStart (p : ascii -> bool) (s : string) : string :=
  match s with
  | "" => ""
  | String c s' => if p c then dropStart p s' else s
  end.

(** [s.replace(/[p]+$/g, '')]: the trailing run of [p] is removed. *)
Fixpoint dropEnd (p : ascii -> bool) (s : string) : string :=
  match s with
  | "" => ""
  | String c s' =>
      match dropEnd p s' with
      | "" => if p c then "" else String c ""
      | String d t => String c (String d t)
      end
  end.

(** [s.trim()]. *)
Definition trim (s : string) : string :=
  dropEnd RegExp.is_space (dropStart RegExp.is_space s).

(** [s.replace(/[p]$/, '')]: the last character is removed when it is in [p]. *)
Fixpoint removeLast (p : ascii -> bool) (s : string) : string :=
  match s with
  | "" => ""
  | String c "" => if p c then "" else s
  | String c s' => String c (removeLast p s')
  end.

(** [s.replace(/^[p]|[p]$/g, '')]: one character in [p] is removed at the
    start, and one at the end of what is left. *)
Definition stripEnds (p : ascii -> bool) (s : string) : string :=
  removeLast p
    (match s with
     | "" => ""
     | String c s' => if p c then s' else s
     end).

(** [s.replace(/pat/g, rep)] for a fixed, non-empty text [pat]: scanning from
    the left, each occurrence found is replaced and the scan goes on after
    it.  [skip] counts the characters of a replaced occurrence still to pass. *)
Fixpoint replaceFrom (pat rep : string) (skip : nat) (s : string) : string :=
  match s with
  | "" => ""
  | String c s' =>
      match skip with
      | S k => replaceFrom pat rep k s'
      | O =>
          if Js.startsWith s pat
          then rep ++ replaceFrom pat rep (String.length pat - 1) s'
          else String c (replaceFrom pat rep 0 s')
      end
  end.

Definition replaceAll (pat rep s : string) : string := replaceFrom pat rep 0 s.

(** *** The private key *)

(** [main.ts] lines 81-87: [finalizedKey]. *)
Definition finalizedKey (rawPrivateKey : option string) : option string :=
  match rawPrivateKey with
  | Some raw =>
      if truthy raw then
        Some (replaceAll "\n" NL
                (replaceAll "\\n" NL
                   (stripEnds isQuote (trim raw))))
      else None
  | None => None
  end.

(** The first revision, lines 68-73: [cleanPrivateKey]. *)
Definition cleanPrivateKey (rawPrivateKey : option string) : option string :=
  match rawPrivateKey with
  | Some raw =>
      if truthy raw then
        Some (trim
                (stripEnds isSingleQuote
                   (stripEnds isDoubleQuote
                      (replaceAll "\\n" NL (replaceAll "\n" NL raw)))))
      else None
  | None => None
  end.

(** [main.ts] lines 114-119: the certificate URL. *)
Definition certUrl (raw : option string) : option string :=
  match raw with
  | Some url =>
      if truthy url then Some (dropStart isQuote (dropEnd isQuoteOrComma url))
      else None
  | None => None
  end.

(** *** Allowed origins *)

(** The environment variables the origin list is read from. *)
Record Env : Type := mkEnv {
  FRONTEND_URL : option string;
  NEXT_PUBLIC_SITE_URL : option string;
  SERVICE_URL_TEXTBEE_WEB : option string;
  SERVICE_FQDN_TEXTBEE_WEB : option string
}.

(** [xs.filter(Boolean)]: [undefined] and the empty string are dropped. *)
Fixpoint filterBoolean (xs : list (option string)) : list string :=
  match xs with
  | [] => []
  | Some s :: xs' => if truthy s then s :: filterBoolean xs' else filterBoolean xs'
  | None :: xs' => filterBoolean xs'
  end.

(** [FQDN ? `https://${FQDN}` : undefined]. *)
Definition fqdnOrigin (e : Env) : option string :=
  match SERVICE_FQDN_TEXTBEE_WEB e with
  | Some d => if truthy d then Some ("https://" ++ d) else None
  | None => None
  end.

(** [main.ts] lines 34-39: [allowedOrigins]. *)
Definition allowedOrigins (e : Env) : list string :=
  filterBoolean
    [FRONTEND_URL e; NEXT_PUBLIC_SITE_URL e; SERVICE_URL_TEXTBEE_WEB e; fqdnOrigin e].

(** The later revision, lines 35-41: [rawOrigins], with the fixed fallback. *)
Definition rawOrigins (e : Env) : list (option string) :=
  [FRONTEND_URL e; NEXT_PUBLIC_SITE_URL e; SERVICE_URL_TEXTBEE_WEB e; fqdnOrigin e;
   Some "https://textbee.arcofs.app"].

(** [s.trim().replace(/\/$/, '')]. *)
Definition normalizeOrigin (s : string) : string := removeLast isSlash (trim s).

(** [[...new Set(xs)]]: first occurrences, in order. *)
Fixpoint dedupeFrom (seen : list string) (xs : list string) : list string :=
  match xs with
  | [] => []
  | x :: xs' =>
      if existsb (String.eqb x) seen then dedupeFrom seen xs'
      else x :: dedupeFrom (x :: seen) xs'
  end.

(** The later revision, lines 43-47: [allowedOrigins]. *)
Definition normalizedOrigins (e : Env) : list string :=
  dedupeFrom [] (map normalizeOrigin (filterBoolean (rawOrigins e))).

(** What the origin callback hands to [callback]. *)
Inductive corsDecision : Type :=
| Allow
| Block (message : string).

(** [main.ts] lines 133-139: the [origin] callback of [enableCors].  The
    request's [Origin] header is [None] when absent. *)
Definition corsOrigin (allowed : list string) (origin : option string)
  : corsDecision :=
  match origin with
  | None => Allow
  | Some o =>
      if negb (truthy o) || existsb (String.eqb o) allowed then Allow
      else Block ("CORS blocked for origin: " ++ o)
  end.

End Bootstrap.

(** ** Patterns of plain characters and dots *)

(** The terms a text of plain characters and dots parses to. *)
Fixpoint dotted (p : string) : list RegExp.node :=
  match p with
  | "" => []
  | String c p' =>
      (if Ascii.eqb c "." then RegExp.AnyChar else RegExp.Char c) :: dotted p'
  end.

(** No character of [p] is a syntax character other than the dot. *)
Definition plainOrDot (p : string) : bool :=
  Js.every (fun c => Ascii.eqb c "." || negb (RegExp.is_syntax_char c)) p.

(** [p] matches the beginning of [s] when each dot stands for any character
    but a line terminator. *)
Fixpoint startsWithDotted (s p : string) : bool :=
  match p, s with
  | "", _ => true
  | String _ _, "" => false
  | String x p', String y s' =>
      (if Ascii.eqb x "." then negb (RegExp.is_line_terminator y) else Ascii.eqb y x)
      && startsWithDotted s' p'
  end.

(** * Properties *)

(** ** Strings *)

Module JsFacts.
Import Js.

Lemma startsWith_nil (s : string) : startsWith s "" = true.
Proof. destruct s; reflexivity. Qed.

Lemma startsWith_app (a b : string) : startsWith (a ++ b) a = true.
Proof.
  induction a as [|c a IH]; simpl.
  - apply startsWith_nil.
  - now rewrite Ascii.eqb_refl.
Qed.

Lemma startsWith_length (s p : string) :
  startsWith s p = true -> String.length p <= String.length s.
Proof.
  revert s; induction p as [|x p IH]; intros [|y s]; simpl; try lia; try discriminate.
  intros H; apply andb_prop in H as [_ H]. apply IH in H. lia.
Qed.

Lemma startsWith_substr (s p : string) :
  startsWith s p = true <-> substr s 0 (String.length p) = p.
Proof.
  unfold substr. revert s; induction p as [|x p IH]; intros s; simpl.
  - split; intros _; [now destruct s | apply startsWith_nil].
  - destruct s as [|y s]; simpl.
    + split; discriminate.
    + rewrite andb_true_iff, Ascii.eqb_eq, IH. split.
      * intros [-> ->]; reflexivity.
      * intros H; injection H as -> H. now rewrite H.
Qed.

Lemma includes_length (s t : string) :
  includes s t = true -> String.length t <= String.length s.
Proof.
  induction s as [|c s IH]; cbn [includes].
  - rewrite orb_false_r. intros H; now apply startsWith_length in H.
  - intros H; apply orb_prop in H as [H|H].
    + now apply startsWith_length in H.
    + apply IH in H. cbn [String.length]. lia.
Qed.

Lemma some_startsWith (p : ascii -> bool) (s t : string) :
  startsWith s t = true -> some p t = true -> some p s = true.
Proof.
  revert s; induction t as [|x t IH]; intros [|y s]; simpl; try discriminate.
  intros H; apply andb_prop in H as [E H]. apply Ascii.eqb_eq in E; subst y.
  intros S; apply orb_prop in S as [S|S].
  - now rewrite S.
  - rewrite (IH _ H S). apply orb_true_r.
Qed.

Lemma some_includes (p : ascii -> bool) (s t : string) :
  includes s t = true -> some p t = true -> some p s = true.
Proof.
  induction s as [|c s IH]; cbn [includes]; intros H S.
  - rewrite orb_false_r in H. now apply (some_startsWith p _ _ H).
  - apply orb_prop in H as [H|H].
    + now apply (some_startsWith p _ _ H S).
    + cbn [some]. rewrite (IH H S). apply orb_true_r.
Qed.

Lemma every_some (p : ascii -> bool) (s : string) :
  every (fun c => negb (p c)) s = true -> some p s = false.
Proof.
  induction s as [|c s IH]; simpl; [reflexivity|].
  intros H; apply andb_prop in H as [H1 H2].
  apply negb_true_iff in H1. now rewrite H1, IH.
Qed.

Lemma every_impl (p r : ascii -> bool) (s : string) :
  (forall c, p c = true -> r c = true) -> every p s = true -> every r s = true.
Proof.
  intros I; induction s as [|c s IH]; simpl; [reflexivity|].
  intros H; apply andb_prop in H as [H1 H2]. now rewrite (I _ H1), IH.
Qed.

Lemma every_substr (p : ascii -> bool) (s : string) (n : nat) :
  every p s = true -> every p (substr s 0 n) = true.
Proof.
  unfold substr. revert n; induction s as [|c s IH]; intros [|n]; simpl; try reflexivity.
  intros H; apply andb_prop in H as [H1 H2]. now rewrite H1, IH.
Qed.

Lemma length_substr (s : string) (n : nat) :
  n <= String.length s -> String.length (substr s 0 n) = n.
Proof.
  unfold substr. revert n; induction s as [|c s IH]; intros [|n]; simpl; try lia.
  intros H. rewrite IH; lia.
Qed.

Lemma substr_short (s : string) (n : nat) :
  String.length s <= n -> substr s 0 n = s.
Proof.
  unfold substr. revert n; induction s as [|c s IH]; intros [|n]; simpl; try lia; try reflexivity.
  intros H. rewrite IH; [reflexivity|lia].
Qed.

Lemma substr_app (a b : string) :
  substr (a ++ b) 0 (String.length a) = a.
Proof. apply startsWith_substr, startsWith_app. Qed.

Lemma append_empty (a : string) : a ++ "" = a.
Proof. induction a; simpl; congruence. Qed.

Lemma length_app (a b : string) :
  String.length (a ++ b) = String.length a + String.length b.
Proof. induction a; simpl; auto. Qed.

Lemma substr_app_long (a b : string) (n : nat) :
  n <= String.length a -> substr (a ++ b) 0 n = substr a 0 n.
Proof.
  unfold substr. revert n; induction a as [|c a IH]; intros [|n]; simpl; try lia.
  - now destruct b.
  - reflexivity.
  - intros H. rewrite IH; [reflexivity|lia].
Qed.

End JsFacts.

(** ** Patterns without syntax characters *)

Module RegExpFacts.
Import RegExp.

Lemma plain_ctype (c : ascii) : is_syntax_char c = false -> ctype_of c = COther.
Proof. unfold is_syntax_char. destruct (ctype_of c); congruence. Qed.

Lemma parse_plain (p rest : string) :
  plain p = true ->
  forall stack f,
    parse stack f Normal (p ++ rest) =
    parse stack (mkFrame (alts f) (rev (literal p) ++ terms f)
                   (match p with "" => q f | _ => Atom end)) Normal rest.
Proof.
  induction p as [|c p IH]; intros Hp stack f.
  - simpl. now destruct f.
  - simpl in Hp. apply andb_prop in Hp as [Hc Hp].
    apply negb_true_iff, plain_ctype in Hc.
    cbn [append parse]. rewrite Hc. rewrite IH by assumption.
    cbn [push_atom alts terms q literal rev].
    rewrite <- app_assoc. cbn [app].
    now destruct p.
Qed.

Lemma new_anchored_plain (p : string) :
  plain p = true ->
  new ("^" ++ p) = Pattern (seq_of (AssertStart :: literal p)).
Proof.
  intros Hp. unfold new. cbn [append parse].
  change (ctype_of "^") with CCaret. cbv iota.
  rewrite <- (JsFacts.append_empty p) at 1.
  rewrite (parse_plain p "" Hp). cbn [parse alts terms push_assert frame0].
  unfold close. cbn [alts terms rev app alt_of].
  rewrite rev_app_distr, rev_involutive. reflexivity.
Qed.

Lemma run_literal (p : string) (start : bool) (s : string) :
  run (seq_of (literal p)) start s (fun _ _ => true) = Js.startsWith s p.
Proof.
  revert start s; induction p as [|c p IH]; intros start s.
  - simpl. now destruct s.
  - cbn [literal seq_of fold_right run]. destruct s as [|x s]; [reflexivity|].
    cbn [Js.startsWith]. f_equal. apply IH.
Qed.

Lemma search_anchored_later (r : node) (s : string) :
  search (Seq AssertStart r) false s = false.
Proof. induction s as [|x s IH]; simpl; auto. Qed.

Lemma test_anchored_literal (p s : string) :
  test (seq_of (AssertStart :: literal p)) s = Js.startsWith s p.
Proof.
  unfold test. cbn [seq_of fold_right].
  destruct s as [|x s]; cbn [search].
  - cbn [run andb]. rewrite orb_false_r. apply (run_literal p true "").
  - rewrite search_anchored_later, orb_false_r. cbn [run andb].
    apply (run_literal p true (String x s)).
Qed.

Lemma plain_not_quest (c : ascii) :
  is_syntax_char c = false -> Ascii.eqb c "?" = false.
Proof.
  intros H. destruct (Ascii.eqb c "?") eqn:E; [|reflexivity].
  apply Ascii.eqb_eq in E; subst c. discriminate.
Qed.

(** A group that is opened and followed by plain text only is never closed. *)
Lemma new_unterminated_group (p : string) :
  plain p = true -> new ("^(" ++ p) = SyntaxError.
Proof.
  intros Hp. unfold new. cbn [append parse].
  change (ctype_of "^") with CCaret. change (ctype_of "(") with CLParen. cbv iota.
  assert (G : forall f stack, parse (f :: stack) frame0 Normal p = SyntaxError).
  { intros f stack. rewrite <- (JsFacts.append_empty p).
    rewrite (parse_plain p "" Hp). reflexivity. }
  destruct p as [|x [|y p]]; [reflexivity| |];
    simpl in Hp; apply andb_prop in Hp as [Hx _];
    apply negb_true_iff, plain_not_quest in Hx; rewrite Hx; apply G.
Qed.

(** For a plain prefix the constructed expression is a prefix test. *)
Lemma anchored_plain (p : string) :
  plain p = true ->
  exists r, new ("^" ++ p) = Pattern r /\ forall s, test r s = Js.startsWith s p.
Proof.
  intros Hp. eexists; split; [apply (new_anchored_plain p Hp)|].
  intros s; apply test_anchored_literal.
Qed.

End RegExpFacts.

(** ** Version 4 keys *)

Module UuidFacts.
Import Uuid.

Lemma fits_length (tpl s : string) :
  fits tpl s = true -> String.length s = String.length tpl.
Proof.
  revert s; induction tpl as [|t tpl IH]; intros [|c s]; simpl; try discriminate; auto.
  intros H; apply andb_prop in H as [_ H]. now rewrite (IH _ H).
Qed.

Lemma is_v4_length (s : string) : is_v4 s = true -> String.length s = 36.
Proof. intros H; apply fits_length in H. exact H. Qed.

Lemma hex_plain (c : ascii) : is_hex c = true -> RegExp.is_syntax_char c = false.
Proof.
  destruct c as [[] [] [] [] [] [] [] []]; vm_compute; congruence.
Qed.

Lemma variant_plain (c : ascii) : is_variant c = true -> RegExp.is_syntax_char c = false.
Proof.
  destruct c as [[] [] [] [] [] [] [] []]; vm_compute; congruence.
Qed.

Lemma slot_plain (t c : ascii) :
  RegExp.is_syntax_char t = false -> slot t c = true -> RegExp.is_syntax_char c = false.
Proof.
  intros Ht. unfold slot.
  destruct (Ascii.eqb t "x"); [apply hex_plain|].
  destruct (Ascii.eqb t "y"); [apply variant_plain|].
  intros E; apply Ascii.eqb_eq in E; now subst c.
Qed.

Lemma fits_plain (tpl s : string) :
  RegExp.plain tpl = true -> fits tpl s = true -> RegExp.plain s = true.
Proof.
  unfold RegExp.plain.
  revert s; induction tpl as [|t tpl IH]; intros [|c s]; simpl; try discriminate; auto.
  intros Ht H. apply andb_prop in Ht as [Ht1 Ht2]. apply andb_prop in H as [H1 H2].
  apply negb_true_iff in Ht1. rewrite (slot_plain t c Ht1 H1). simpl. now apply IH.
Qed.

Lemma is_v4_plain (s : string) : is_v4 s = true -> RegExp.plain s = true.
Proof. apply fits_plain. reflexivity. Qed.

(** A fixed character of the template sits at the same index of the key. *)
Lemma fits_get (tpl s : string) (n : nat) (t : ascii) :
  fits tpl s = true -> String.get n tpl = Some t ->
  Ascii.eqb t "x" = false -> Ascii.eqb t "y" = false ->
  String.get n s = Some t.
Proof.
  revert s n; induction tpl as [|t0 tpl IH]; intros [|c s] n; simpl; try discriminate.
  intros H; apply andb_prop in H as [H1 H2].
  destruct n as [|n].
  - intros E; injection E as ->. intros Hx Hy.
    unfold slot in H1. rewrite Hx, Hy in H1. apply Ascii.eqb_eq in H1. now subst.
  - intros E Hx Hy. now apply (IH s n).
Qed.

Lemma get_some (p : ascii -> bool) (s : string) (n : nat) (c : ascii) :
  String.get n s = Some c -> p c = true -> Js.some p s = true.
Proof.
  revert n; induction s as [|x s IH]; intros [|n]; simpl; try discriminate.
  - intros E; injection E as ->. intros ->. reflexivity.
  - intros E H. rewrite (IH n E H). apply orb_true_r.
Qed.

Lemma is_v4_hyphen (s : string) :
  is_v4 s = true -> Js.some (fun c => Ascii.eqb c "-") s = true.
Proof.
  intros H. apply (get_some _ s 8 "-"); [|reflexivity].
  now apply (fits_get template s 8 "-" H).
Qed.

End UuidFacts.

(** ** The validation on plain prefixes *)

Section ValidateFacts.

Variable bcrypt_compareSync : string -> string -> bool.

(** With a plain prefix the lookup is a prefix test on the masked key, and
    the verdict is bcrypt's whenever the document is found. *)
Lemma validate_plain (incomingApiKey : string) (doc : ApiKeyDoc) :
  RegExp.plain (prefix incomingApiKey) = true ->
  validate bcrypt_compareSync incomingApiKey doc =
  if Js.startsWith (doc_apiKey doc) (prefix incomingApiKey) then
    ([DbFind ("^" ++ prefix incomingApiKey) true;
      BcryptCompare incomingApiKey (doc_hashedApiKey doc)
        (bcrypt_compareSync incomingApiKey (doc_hashedApiKey doc))],
     Logged (if bcrypt_compareSync incomingApiKey (doc_hashedApiKey doc)
             then Success else BcryptFailed))
  else ([DbFind ("^" ++ prefix incomingApiKey) false], Logged RegexFailed).
Proof.
  intros Hp. unfold validate, regex.
  rewrite (RegExpFacts.new_anchored_plain _ Hp).
  now rewrite RegExpFacts.test_anchored_literal.
Qed.

(** The validation reads the masked key and the digest of the document and
    nothing else. *)
Lemma validate_fields (incomingApiKey : string) (doc doc' : ApiKeyDoc) :
  doc_apiKey doc' = doc_apiKey doc ->
  doc_hashedApiKey doc' = doc_hashedApiKey doc ->
  validate bcrypt_compareSync incomingApiKey doc' =
  validate bcrypt_compareSync incomingApiKey doc.
Proof. intros E1 E2. unfold validate. now rewrite E1, E2. Qed.

End ValidateFacts.

Lemma prefix_v4_plain (apiKey : string) :
  Uuid.is_v4 apiKey = true -> RegExp.plain (prefix apiKey) = true.
Proof.
  intros H. unfold prefix, RegExp.plain.
  apply JsFacts.every_substr. now apply UuidFacts.is_v4_plain.
Qed.

Lemma length_prefix_v4 (apiKey : string) :
  Uuid.is_v4 apiKey = true -> String.length (prefix apiKey) = 17.
Proof.
  intros H. unfold prefix. apply JsFacts.length_substr.
  rewrite (UuidFacts.is_v4_length _ H). lia.
Qed.

Lemma lookupPrefix_stored (Salt : Type) (hash : string -> nat -> Salt -> string)
    (apiKey : string) (salt : Salt) :
  Uuid.is_v4 apiKey = true ->
  lookupPrefix (mockDbApiKey Salt hash apiKey salt) = prefix apiKey.
Proof.
  intros H. unfold lookupPrefix, mockDbApiKey, storedApiKey, prefix. cbn [doc_apiKey].
  pose proof (length_prefix_v4 _ H) as L. unfold prefix in L.
  transitivity (Js.substr (Js.substr apiKey 0 17 ++ Js.repeat "*" 18) 0
                  (String.length (Js.substr apiKey 0 17))).
  - now rewrite L.
  - apply JsFacts.substr_app.
Qed.

(** An opening parenthesis in front of plain text: the pattern has a group
    that is never closed. *)
Lemma paren_key_throws (bcrypt_compareSync : string -> string -> bool)
    (rest : string) (doc : ApiKeyDoc) :
  RegExp.plain rest = true ->
  validate bcrypt_compareSync ("(" ++ rest) doc = ([], Throws).
Proof.
  intros Hp.
  assert (E : "^" ++ prefix ("(" ++ rest) = "^(" ++ Js.substr rest 0 16) by reflexivity.
  unfold validate, regex. rewrite E.
  rewrite RegExpFacts.new_unterminated_group; [reflexivity|].
  now apply (JsFacts.every_substr _ rest 16).
Qed.

Lemma double_accepts (s : string) (rounds : nat) (salt : unit) :
  BcryptDouble.compareSync s (BcryptDouble.hash s rounds salt) = true.
Proof. unfold BcryptDouble.compareSync, BcryptDouble.hash. apply String.eqb_refl. Qed.

(** ** The claims *)

Lemma generated_key_succeeds (Salt : Type)
    (bcrypt_hash : string -> nat -> Salt -> string)
    (bcrypt_compareSync : string -> string -> bool)
    (accepts : forall s rounds salt,
        bcrypt_compareSync s (bcrypt_hash s rounds salt) = true)
    (apiKey : string) (salt : Salt) :
  Uuid.is_v4 apiKey = true ->
  testApiKeyLogic Salt bcrypt_hash bcrypt_compareSync apiKey salt =
    ([DbFind ("^" ++ prefix apiKey) true;
      BcryptCompare apiKey (bcrypt_hash apiKey 10 salt) true],
     Logged Success).
Proof.
  intros H. unfold testApiKeyLogic.
  rewrite validate_plain by now apply prefix_v4_plain.
  cbn [mockDbApiKey doc_apiKey doc_hashedApiKey].
  unfold storedApiKey, prefix, hashedApiKey.
  rewrite JsFacts.startsWith_app, accepts. reflexivity.
Qed.

(** C1. Validating a freshly generated key against the document written for
    it succeeds: the document's leading slice equals the key's, the lookup
    finds the document, bcrypt accepts, and the script logs
    [SUCCESS: API Key Verified].  The document is not revoked. *)
Theorem issued_key_verifies (Salt : Type)
    (bcrypt_hash : string -> nat -> Salt -> string)
    (bcrypt_compareSync : string -> string -> bool)
    (accepts : forall s rounds salt,
        bcrypt_compareSync s (bcrypt_hash s rounds salt) = true)
    (apiKey : string) (salt : Salt) :
  Uuid.is_v4 apiKey = true ->
  let doc := mockDbApiKey Salt bcrypt_hash apiKey salt in
  doc_revokedAt doc = None /\
  lookupPrefix doc = prefix apiKey /\
  testApiKeyLogic Salt bcrypt_hash bcrypt_compareSync apiKey salt =
    ([DbFind ("^" ++ prefix apiKey) true;
      BcryptCompare apiKey (doc_hashedApiKey doc) true],
     Logged Success).
Proof.
  intros H doc. split; [reflexivity|]. split.
  - now apply lookupPrefix_stored.
  - now apply generated_key_succeeds.
Qed.

Lemma issued_key_verifies_witness :
  (forall s rounds salt,
      BcryptDouble.compareSync s (BcryptDouble.hash s rounds salt) = true) /\
  Uuid.is_v4 sampleKey = true /\
  testApiKeyLogic unit BcryptDouble.hash BcryptDouble.compareSync sampleKey tt =
    ([DbFind "^123e4567-e89b-42d" true;
      BcryptCompare sampleKey (doc_hashedApiKey sampleDoc) true],
     Logged Success).
Proof.
  split; [exact double_accepts|]. split; [reflexivity|].
  exact (proj2 (proj2 (issued_key_verifies unit BcryptDouble.hash
                         BcryptDouble.compareSync double_accepts
                         sampleKey tt eq_refl))).
Defined.

Lemma length_storedApiKey (apiKey : string) :
  Uuid.is_v4 apiKey = true -> String.length (storedApiKey apiKey) = 35.
Proof.
  intros H. pose proof (length_prefix_v4 _ H) as L. unfold prefix in L.
  unfold storedApiKey. rewrite JsFacts.length_app, L. reflexivity.
Qed.

(** C10. For a generated key the masked value that is stored has 35
    characters: the first 17 of the key, then 18 asterisks; it is never the
    key itself. *)
Theorem stored_key_is_masked (apiKey : string) :
  Uuid.is_v4 apiKey = true ->
  storedApiKey apiKey = Js.substr apiKey 0 17 ++ "******************" /\
  String.length (Js.substr apiKey 0 17) = 17 /\
  String.length (storedApiKey apiKey) = 35 /\
  storedApiKey apiKey <> apiKey.
Proof.
  intros H. pose proof (length_prefix_v4 _ H) as L. unfold prefix in L.
  pose proof (length_storedApiKey _ H) as L35.
  repeat split; auto.
  intros E. rewrite E, (UuidFacts.is_v4_length _ H) in L35. discriminate.
Qed.

Lemma stored_key_is_masked_witness :
  Uuid.is_v4 sampleKey = true /\
  storedApiKey sampleKey = "123e4567-e89b-42d******************" /\
  String.length (storedApiKey sampleKey) = 35 /\
  storedApiKey sampleKey <> sampleKey.
Proof.
  split; [reflexivity|].
  pose proof (stored_key_is_masked sampleKey eq_refl) as [E [_ [L N]]].
  split; [exact E|]. split; [exact L | exact N].
Defined.

Lemma digest_char_not_hyphen (c : ascii) :
  Bcrypt.is_digest_char c = true -> negb (Ascii.eqb c "-") = true.
Proof.
  destruct c as [[] [] [] [] [] [] [] []]; vm_compute; congruence.
Qed.

(** C8. What the document keeps of a generated key: the digest is not the
    key, does not contain the key and is not contained in it; the masked key
    is not the key and does not contain it.  No field holds the plaintext. *)
Theorem digest_not_plaintext (Salt : Type)
    (bcrypt_hash : string -> nat -> Salt -> string)
    (apiKey : string) (salt : Salt) :
  Uuid.is_v4 apiKey = true ->
  Bcrypt.is_digest (bcrypt_hash apiKey 10 salt) = true ->
  let doc := mockDbApiKey Salt bcrypt_hash apiKey salt in
  doc_hashedApiKey doc <> apiKey /\
  Js.includes (doc_hashedApiKey doc) apiKey = false /\
  Js.includes apiKey (doc_hashedApiKey doc) = false /\
  doc_apiKey doc <> apiKey /\
  Js.includes (doc_apiKey doc) apiKey = false /\
  doc_revokedAt doc = None.
Proof.
  intros H D doc. subst doc. cbn [mockDbApiKey doc_apiKey doc_hashedApiKey doc_revokedAt].
  unfold hashedApiKey. set (h := bcrypt_hash apiKey 10 salt) in *.
  unfold Bcrypt.is_digest in D. apply andb_prop in D as [DL DC].
  apply Nat.eqb_eq in DL.
  pose proof (UuidFacts.is_v4_length _ H) as L.
  pose proof (length_storedApiKey _ H) as L35.
  assert (I1 : Js.includes h apiKey = false).
  { destruct (Js.includes h apiKey) eqn:I; [|reflexivity].
    pose proof (JsFacts.some_includes _ _ _ I (UuidFacts.is_v4_hyphen _ H)) as S.
    rewrite (JsFacts.every_some (fun c => Ascii.eqb c "-") h) in S; [discriminate|].
    apply (JsFacts.every_impl Bcrypt.is_digest_char); [|exact DC].
    exact digest_char_not_hyphen. }
  assert (I2 : Js.includes apiKey h = false).
  { destruct (Js.includes apiKey h) eqn:I; [|reflexivity].
    apply JsFacts.includes_length in I. lia. }
  assert (I3 : Js.includes (storedApiKey apiKey) apiKey = false).
  { destruct (Js.includes (storedApiKey apiKey) apiKey) eqn:I; [|reflexivity].
    apply JsFacts.includes_length in I. lia. }
  repeat split; auto.
  - intros E. rewrite E in DL. lia.
  - intros E. rewrite E in L35. lia.
Qed.

Lemma digest_not_plaintext_witness :
  Uuid.is_v4 sampleKey = true /\
  Bcrypt.is_digest (BcryptDouble.hash sampleKey 10 tt) = true /\
  doc_hashedApiKey sampleDoc <> sampleKey /\
  Js.includes (doc_hashedApiKey sampleDoc) sampleKey = false /\
  Js.includes sampleKey (doc_hashedApiKey sampleDoc) = false /\
  doc_apiKey sampleDoc <> sampleKey /\
  Js.includes (doc_apiKey sampleDoc) sampleKey = false /\
  doc_revokedAt sampleDoc = None.
Proof.
  split; [reflexivity|]. split; [reflexivity|].
  exact (digest_not_plaintext unit BcryptDouble.hash sampleKey tt eq_refl eq_refl).
Defined.

(** C9. The validation is total only on a condition on the presented key.
    The first 17 characters go into the pattern as they are, so a key that
    begins with an opening parenthesis and has no closing one among them
    makes [new RegExp] throw, whatever the document.  When the prefix has no
    syntax character the validation ends with a verdict; the prefix of every
    version 4 key is of that kind. *)
Theorem validate_total_on_plain_prefix
    (bcrypt_compareSync : string -> string -> bool) :
  (forall rest doc,
      RegExp.plain rest = true ->
      validate bcrypt_compareSync ("(" ++ rest) doc = ([], Throws)) /\
  (forall incomingApiKey doc,
      RegExp.plain (prefix incomingApiKey) = true ->
      exists v, snd (validate bcrypt_compareSync incomingApiKey doc) = Logged v) /\
  (forall apiKey,
      Uuid.is_v4 apiKey = true -> RegExp.plain (prefix apiKey) = true).
Proof.
  split; [|split].
  - intros rest doc. apply paren_key_throws.
  - intros incomingApiKey doc Hp. rewrite (validate_plain _ _ _ Hp).
    destruct (Js.startsWith _ _); eexists; reflexivity.
  - exact prefix_v4_plain.
Qed.

Lemma validate_total_on_plain_prefix_witness :
  RegExp.plain (prefix sampleKey) = true /\
  Uuid.is_v4 sampleKey = true /\
  validate BcryptDouble.compareSync "(23e4567-e89b-42d3-a456-426614174000" sampleDoc
    = ([], Throws) /\
  exists v, snd (validate BcryptDouble.compareSync sampleKey sampleDoc) = Logged v.
Proof.
  split; [reflexivity|]. split; [reflexivity|].
  destruct (validate_total_on_plain_prefix BcryptDouble.compareSync) as [T [V _]].
  split; [exact (T "23e4567-e89b-42d3-a456-426614174000" sampleDoc eq_refl)|].
  exact (V sampleKey sampleDoc eq_refl).
Defined.

(** ** Revocation *)

(** C2, counterexample.  The sample key still verifies after its document
    was revoked. *)
Lemma revoked_key_still_verifies :
  doc_revokedAt (Revoke 1 sampleDoc) = Some 1 /\
  snd (validate BcryptDouble.compareSync sampleKey (Revoke 1 sampleDoc))
    = Logged Success /\
  isInvalid (snd (validate BcryptDouble.compareSync sampleKey (Revoke 1 sampleDoc)))
    = false.
Proof. repeat split. Qed.

(** C2, as the script has it.  Revoking the document of a generated key sets
    [revokedAt]; the validation does not read that field, so its trace and
    verdict are those of the document before revocation, and the key is
    still verified. *)
Theorem revocation_not_consulted (Salt : Type)
    (bcrypt_hash : string -> nat -> Salt -> string)
    (bcrypt_compareSync : string -> string -> bool)
    (accepts : forall s rounds salt,
        bcrypt_compareSync s (bcrypt_hash s rounds salt) = true)
    (apiKey : string) (salt : Salt) (now : nat) :
  Uuid.is_v4 apiKey = true ->
  let issued := mockDbApiKey Salt bcrypt_hash apiKey salt in
  doc_revokedAt (Revoke now issued) = Some now /\
  validate bcrypt_compareSync apiKey (Revoke now issued)
    = validate bcrypt_compareSync apiKey issued /\
  snd (validate bcrypt_compareSync apiKey (Revoke now issued)) = Logged Success.
Proof.
  intros H issued.
  assert (E : validate bcrypt_compareSync apiKey (Revoke now issued)
              = validate bcrypt_compareSync apiKey issued).
  { apply validate_fields; reflexivity. }
  split; [reflexivity|]. split; [exact E|]. rewrite E.
  pose proof (generated_key_succeeds Salt bcrypt_hash bcrypt_compareSync accepts
                apiKey salt H) as V.
  unfold testApiKeyLogic in V. fold issued in V. now rewrite V.
Qed.

Lemma revocation_not_consulted_witness :
  (forall s rounds salt,
      BcryptDouble.compareSync s (BcryptDouble.hash s rounds salt) = true) /\
  Uuid.is_v4 sampleKey = true /\
  doc_revokedAt (Revoke 7 sampleDoc) = Some 7 /\
  validate BcryptDouble.compareSync sampleKey (Revoke 7 sampleDoc)
    = validate BcryptDouble.compareSync sampleKey sampleDoc /\
  snd (validate BcryptDouble.compareSync sampleKey (Revoke 7 sampleDoc))
    = Logged Success.
Proof.
  split; [exact double_accepts|]. split; [reflexivity|].
  exact (revocation_not_consulted unit BcryptDouble.hash BcryptDouble.compareSync
           double_accepts sampleKey tt 7 eq_refl).
Defined.

(** ** Altered keys *)

Module ReplaceFacts.

Lemma replaceAt_beyond (s : string) (i : nat) (c : ascii) :
  String.length s <= i -> replaceAt s i c = s.
Proof.
  revert i; induction s as [|x s IH]; intros [|i]; simpl; try lia; auto.
  intros H. rewrite IH; [reflexivity|lia].
Qed.

Lemma substr_replaceAt (s : string) (i n : nat) (c : ascii) :
  Js.substr (replaceAt s i c) 0 n = replaceAt (Js.substr s 0 n) i c.
Proof.
  unfold Js.substr. revert i n; induction s as [|x s IH]; intros i n.
  - destruct n; reflexivity.
  - destruct i as [|i], n as [|n]; simpl; try reflexivity. now rewrite IH.
Qed.

Lemma plain_replaceAt (s : string) (i : nat) (c : ascii) :
  RegExp.plain s = true -> RegExp.is_syntax_char c = false ->
  RegExp.plain (replaceAt s i c) = true.
Proof.
  unfold RegExp.plain. intros Hs Hc.
  revert i Hs; induction s as [|x s IH]; intros [|i]; simpl; auto.
  - intros H; apply andb_prop in H as [_ H]. now rewrite Hc, H.
  - intros H; apply andb_prop in H as [H1 H2]. now rewrite H1, IH.
Qed.

(** A text does not start with an altered copy of its own beginning. *)
Lemma startsWith_replaceAt (p t : string) (i : nat) (c : ascii) :
  i < String.length p -> String.get i p <> Some c ->
  Js.startsWith (p ++ t) (replaceAt p i c) = false.
Proof.
  revert i; induction p as [|x p IH]; intros [|i]; simpl; try lia.
  - intros _ N. destruct (Ascii.eqb x c) eqn:E; [|reflexivity].
    apply Ascii.eqb_eq in E; subst x. now contradiction N.
  - intros L N. rewrite IH by (auto; lia). apply andb_false_r.
Qed.

Lemma get_substr (s : string) (i n : nat) :
  i < n -> String.get i (Js.substr s 0 n) = String.get i s.
Proof.
  unfold Js.substr. revert i n; induction s as [|x s IH]; intros i n L.
  - destruct n; reflexivity.
  - destruct n as [|n]; [lia|]. destruct i as [|i]; simpl; [reflexivity|].
    apply IH; lia.
Qed.

End ReplaceFacts.

(** C3, the failing input.  A generated key with its first character
    replaced by an opening parenthesis is a different key, and it is not
    rejected: the validation throws before any lookup. *)
Theorem flipped_to_paren_throws (Salt : Type)
    (bcrypt_hash : string -> nat -> Salt -> string)
    (bcrypt_compareSync : string -> string -> bool)
    (apiKey : string) (salt : Salt) :
  Uuid.is_v4 apiKey = true ->
  let flipped := replaceAt apiKey 0 "(" in
  let run := validate bcrypt_compareSync flipped
               (mockDbApiKey Salt bcrypt_hash apiKey salt) in
  flipped <> apiKey /\
  run = ([], Throws) /\
  isInvalid (snd run) = false.
Proof.
  intros H flipped run.
  pose proof (UuidFacts.is_v4_plain _ H) as P.
  destruct apiKey as [|c rest]; [discriminate|].
  assert (R : run = ([], Throws)).
  { subst run flipped. cbn [replaceAt]. apply (paren_key_throws _ rest).
    unfold RegExp.plain in P. simpl in P. now apply andb_prop in P as [_ P]. }
  split; [|split; [exact R|now rewrite R]].
  subst flipped. cbn [replaceAt]. intros E. injection E as E. subst c.
  discriminate.
Qed.

Lemma flipped_to_paren_throws_witness :
  Uuid.is_v4 sampleKey = true /\
  replaceAt sampleKey 0 "(" = "(23e4567-e89b-42d3-a456-426614174000" /\
  validate BcryptDouble.compareSync "(23e4567-e89b-42d3-a456-426614174000" sampleDoc
    = ([], Throws).
Proof.
  split; [reflexivity|]. split; [reflexivity|].
  exact (proj1 (proj2 (flipped_to_paren_throws unit BcryptDouble.hash
                         BcryptDouble.compareSync sampleKey tt eq_refl))).
Defined.

(** X10. What holds of altered keys: when the replacing character is not a
    syntax character, an alteration within the first 17 characters makes the
    lookup miss, and one past them leaves the verdict to bcrypt. *)
Lemma plain_flip_rejected (Salt : Type)
    (bcrypt_hash : string -> nat -> Salt -> string)
    (bcrypt_compareSync : string -> string -> bool)
    (apiKey : string) (salt : Salt) (i : nat) (c : ascii) :
  Uuid.is_v4 apiKey = true ->
  String.get i apiKey <> Some c ->
  RegExp.is_syntax_char c = false ->
  let flipped := replaceAt apiKey i c in
  let doc := mockDbApiKey Salt bcrypt_hash apiKey salt in
  (i < 17 ->
   validate bcrypt_compareSync flipped doc
   = ([DbFind ("^" ++ prefix flipped) false], Logged RegexFailed)) /\
  (17 <= i ->
   validate bcrypt_compareSync flipped doc
   = ([DbFind ("^" ++ prefix apiKey) true;
       BcryptCompare flipped (doc_hashedApiKey doc)
         (bcrypt_compareSync flipped (doc_hashedApiKey doc))],
      Logged (if bcrypt_compareSync flipped (doc_hashedApiKey doc)
              then Success else BcryptFailed))).
Proof.
  intros H N Hc flipped doc.
  assert (P : RegExp.plain (prefix flipped) = true).
  { unfold prefix, RegExp.plain. apply JsFacts.every_substr.
    apply ReplaceFacts.plain_replaceAt; [now apply UuidFacts.is_v4_plain|exact Hc]. }
  assert (E : prefix flipped = replaceAt (prefix apiKey) i c).
  { unfold prefix, flipped. apply ReplaceFacts.substr_replaceAt. }
  pose proof (length_prefix_v4 _ H) as L.
  split; intros Hi; rewrite (validate_plain _ _ _ P); subst doc;
    cbn [mockDbApiKey doc_apiKey doc_hashedApiKey]; unfold storedApiKey.
  - rewrite E. fold (prefix apiKey).
    rewrite ReplaceFacts.startsWith_replaceAt; [reflexivity|lia|].
    unfold prefix. rewrite ReplaceFacts.get_substr by exact Hi. exact N.
  - rewrite E, ReplaceFacts.replaceAt_beyond by lia. fold (prefix apiKey).
    now rewrite JsFacts.startsWith_app.
Qed.

(** ** Keys of the wrong length *)

(** C4, counterexample.  The empty key is not turned away before the store
    and the hash are consulted: the pattern [^] finds the document and
    [bcrypt.compareSync] is called. *)
Lemma empty_key_reaches_store_and_hash :
  String.length "" < 17 /\
  validate BcryptDouble.compareSync "" sampleDoc
    = ([DbFind "^" true; BcryptCompare "" (doc_hashedApiKey sampleDoc) false],
       Logged BcryptFailed) /\
  storeCalls (fst (validate BcryptDouble.compareSync "" sampleDoc)) = 1 /\
  hashCalls (fst (validate BcryptDouble.compareSync "" sampleDoc)) = 1.
Proof. repeat split. apply Nat.lt_0_succ. Qed.

(** C4, as the script has it.  A key shorter than 17 characters, free of
    syntax characters, is used whole as the pattern: the store is consulted
    once; the document is found exactly when its masked key starts with the
    presented key, and then bcrypt is called once and decides; otherwise the
    verdict is the lookup failure and bcrypt is not called. *)
Theorem short_key_validation
    (bcrypt_compareSync : string -> string -> bool)
    (incomingApiKey : string) (doc : ApiKeyDoc) :
  String.length incomingApiKey < 17 ->
  RegExp.plain incomingApiKey = true ->
  let run := validate bcrypt_compareSync incomingApiKey doc in
  storeCalls (fst run) = 1 /\
  (Js.startsWith (doc_apiKey doc) incomingApiKey = true ->
   hashCalls (fst run) = 1 /\
   snd run = Logged (if bcrypt_compareSync incomingApiKey (doc_hashedApiKey doc)
                     then Success else BcryptFailed)) /\
  (Js.startsWith (doc_apiKey doc) incomingApiKey = false ->
   hashCalls (fst run) = 0 /\ snd run = Logged RegexFailed).
Proof.
  intros L P run.
  assert (E : prefix incomingApiKey = incomingApiKey).
  { unfold prefix. apply JsFacts.substr_short. lia. }
  assert (P' : RegExp.plain (prefix incomingApiKey) = true) by now rewrite E.
  subst run. rewrite (validate_plain _ _ _ P'), E.
  destruct (Js.startsWith (doc_apiKey doc) incomingApiKey);
    repeat split; intros; try discriminate; reflexivity.
Qed.

Lemma short_key_validation_witness :
  String.length "123e" < 17 /\
  RegExp.plain "123e" = true /\
  storeCalls (fst (validate BcryptDouble.compareSync "123e" sampleDoc)) = 1 /\
  hashCalls (fst (validate BcryptDouble.compareSync "123e" sampleDoc)) = 1 /\
  snd (validate BcryptDouble.compareSync "123e" sampleDoc) = Logged BcryptFailed.
Proof.
  assert (L : String.length "123e" < 17) by (simpl; lia).
  split; [exact L|]. split; [reflexivity|].
  destruct (short_key_validation BcryptDouble.compareSync "123e" sampleDoc L eq_refl)
    as [S [F _]].
  split; [exact S|]. exact (F eq_refl).
Defined.

(** C5, counterexample.  The sample key with an [x] appended is rejected, but
    not without a store call: the lookup is made, and finds the document. *)
Lemma lengthened_key_consults_store :
  validate BcryptDouble.compareSync (sampleKey ++ "x") sampleDoc
    = ([DbFind "^123e4567-e89b-42d" true;
        BcryptCompare (sampleKey ++ "x") (doc_hashedApiKey sampleDoc) false],
       Logged BcryptFailed) /\
  storeCalls (fst (validate BcryptDouble.compareSync (sampleKey ++ "x") sampleDoc)) = 1.
Proof. repeat split. Qed.

(** C5, as the script has it.  For a generated key with one character
    appended, the lookup is made once and finds the document, bcrypt is
    called once, and the key is rejected provided bcrypt rejects it. *)
Theorem lengthened_key_rejected (Salt : Type)
    (bcrypt_hash : string -> nat -> Salt -> string)
    (bcrypt_compareSync : string -> string -> bool)
    (apiKey : string) (salt : Salt) :
  Uuid.is_v4 apiKey = true ->
  bcrypt_compareSync (apiKey ++ "x") (bcrypt_hash apiKey 10 salt) = false ->
  let doc := mockDbApiKey Salt bcrypt_hash apiKey salt in
  let run := validate bcrypt_compareSync (apiKey ++ "x") doc in
  run = ([DbFind ("^" ++ prefix apiKey) true;
          BcryptCompare (apiKey ++ "x") (doc_hashedApiKey doc) false],
         Logged BcryptFailed) /\
  isInvalid (snd run) = true /\
  storeCalls (fst run) = 1 /\
  hashCalls (fst run) = 1.
Proof.
  intros H R doc run.
  assert (E : prefix (apiKey ++ "x") = prefix apiKey).
  { unfold prefix. apply JsFacts.substr_app_long.
    rewrite (UuidFacts.is_v4_length _ H). lia. }
  assert (V : run = ([DbFind ("^" ++ prefix apiKey) true;
                      BcryptCompare (apiKey ++ "x") (doc_hashedApiKey doc) false],
                     Logged BcryptFailed)).
  { subst run. rewrite validate_plain by (rewrite E; now apply prefix_v4_plain).
    rewrite E. subst doc. cbn [mockDbApiKey doc_apiKey doc_hashedApiKey].
    unfold storedApiKey, hashedApiKey. fold (prefix apiKey).
    rewrite JsFacts.startsWith_app, R. reflexivity. }
  rewrite V. repeat split.
Qed.

Lemma lengthened_key_rejected_witness :
  Uuid.is_v4 sampleKey = true /\
  BcryptDouble.compareSync (sampleKey ++ "x") (BcryptDouble.hash sampleKey 10 tt)
    = false /\
  isInvalid (snd (validate BcryptDouble.compareSync (sampleKey ++ "x") sampleDoc))
    = true /\
  storeCalls (fst (validate BcryptDouble.compareSync (sampleKey ++ "x") sampleDoc)) = 1 /\
  hashCalls (fst (validate BcryptDouble.compareSync (sampleKey ++ "x") sampleDoc)) = 1.
Proof.
  split; [reflexivity|]. split; [reflexivity|].
  exact (proj2 (lengthened_key_rejected unit BcryptDouble.hash BcryptDouble.compareSync
                  sampleKey tt eq_refl eq_refl)).
Defined.

(** ** Failure reports *)

(** C6, counterexample.  Two rejected keys, one altered in its first
    character and one in its last: the first run ends with the lookup
    failure, the second with the bcrypt failure, and the two final lines
    differ. *)
Lemma failure_modes_distinguished :
  let miss := validate BcryptDouble.compareSync
                "023e4567-e89b-42d3-a456-426614174000" sampleDoc in
  let mismatch := validate BcryptDouble.compareSync
                    "123e4567-e89b-42d3-a456-426614174001" sampleDoc in
  isInvalid (snd miss) = true /\
  isInvalid (snd mismatch) = true /\
  snd miss = Logged RegexFailed /\
  snd mismatch = Logged BcryptFailed /\
  message RegexFailed <> message BcryptFailed.
Proof. repeat split. discriminate. Qed.

(** C6, as the script has it.  A rejection is one of two, and the final line
    tells which: the lookup failure, after one store call that found nothing
    and no bcrypt call, or the bcrypt failure, after one store call that
    found the document and one bcrypt call that rejected.  The line carries
    nothing else. *)
Theorem failure_reports_its_mode
    (bcrypt_compareSync : string -> string -> bool)
    (incomingApiKey : string) (doc : ApiKeyDoc) :
  let run := validate bcrypt_compareSync incomingApiKey doc in
  isInvalid (snd run) = true ->
  (run = ([DbFind ("^" ++ prefix incomingApiKey) false], Logged RegexFailed) /\
   message RegexFailed = "FAILURE: Regex failed to find document") \/
  (run = ([DbFind ("^" ++ prefix incomingApiKey) true;
           BcryptCompare incomingApiKey (doc_hashedApiKey doc) false],
          Logged BcryptFailed) /\
   message BcryptFailed = "FAILURE: Bcrypt failed").
Proof.
  intros run. subst run. unfold validate.
  destruct (regex incomingApiKey) as [| |r]; cbn [snd isInvalid]; try discriminate.
  destruct (RegExp.test r (doc_apiKey doc)).
  - destruct (bcrypt_compareSync incomingApiKey (doc_hashedApiKey doc));
      cbn [snd isInvalid]; [discriminate|]. intros _. right. split; reflexivity.
  - intros _. left. split; reflexivity.
Qed.

Lemma failure_reports_its_mode_witness :
  isInvalid (snd (validate BcryptDouble.compareSync
                    "023e4567-e89b-42d3-a456-426614174000" sampleDoc)) = true /\
  ((validate BcryptDouble.compareSync "023e4567-e89b-42d3-a456-426614174000" sampleDoc
    = ([DbFind ("^" ++ prefix "023e4567-e89b-42d3-a456-426614174000") false],
       Logged RegexFailed) /\
    message RegexFailed = "FAILURE: Regex failed to find document") \/
   (validate BcryptDouble.compareSync "023e4567-e89b-42d3-a456-426614174000" sampleDoc
    = ([DbFind ("^" ++ prefix "023e4567-e89b-42d3-a456-426614174000") true;
        BcryptCompare "023e4567-e89b-42d3-a456-426614174000"
          (doc_hashedApiKey sampleDoc) false],
       Logged BcryptFailed) /\
    message BcryptFailed = "FAILURE: Bcrypt failed")).
Proof.
  split; [reflexivity|].
  exact (failure_reports_its_mode BcryptDouble.compareSync
           "023e4567-e89b-42d3-a456-426614174000" sampleDoc eq_refl).
Defined.

(** ** The lookup *)

(** C7, counterexample.  The lookup is a pattern match, not an equality test
    on the stored prefix: the pattern of the three-character prefix [123]
    selects the sample document, and so does the pattern of seventeen dots,
    though the document's stored prefix is neither. *)
Lemma lookup_false_positives :
  lookupPrefix sampleDoc <> "123" /\
  lookupPrefix sampleDoc <> "................." /\
  (exists r, RegExp.new ("^" ++ "123") = RegExp.Pattern r /\
             RegExp.test r (doc_apiKey sampleDoc) = true) /\
  (exists r, RegExp.new ("^" ++ ".................") = RegExp.Pattern r /\
             RegExp.test r (doc_apiKey sampleDoc) = true).
Proof.
  split; [discriminate|]. split; [discriminate|].
  split; eexists; split; reflexivity.
Qed.

(** C7, as the script has it.  For a prefix free of syntax characters the
    lookup selects exactly the documents whose masked key starts with the
    prefix: none of them is left out and no other is selected.  When the
    prefix has 17 characters these are the documents whose stored prefix
    equals it. *)
Theorem lookup_is_prefix_test (p : string) (docs : list ApiKeyDoc) :
  RegExp.plain p = true ->
  exists r,
    RegExp.new ("^" ++ p) = RegExp.Pattern r /\
    filter (fun d => RegExp.test r (doc_apiKey d)) docs
      = filter (fun d => Js.startsWith (doc_apiKey d) p) docs /\
    (String.length p = 17 ->
     filter (fun d => RegExp.test r (doc_apiKey d)) docs
       = filter (fun d => String.eqb (lookupPrefix d) p) docs).
Proof.
  intros Hp. destruct (RegExpFacts.anchored_plain p Hp) as [r [N T]].
  exists r. split; [exact N|]. split.
  - apply filter_ext. intros d. apply T.
  - intros L. apply filter_ext. intros d. rewrite T. unfold lookupPrefix.
    destruct (String.eqb_spec (Js.substr (doc_apiKey d) 0 17) p) as [E|E].
    + apply JsFacts.startsWith_substr. now rewrite L.
    + destruct (Js.startsWith (doc_apiKey d) p) eqn:S; [|reflexivity].
      apply JsFacts.startsWith_substr in S. rewrite L in S. contradiction.
Qed.

Lemma lookup_is_prefix_test_witness :
  RegExp.plain "123e4567-e89b-42d" = true /\
  String.length "123e4567-e89b-42d" = 17 /\
  exists r,
    RegExp.new ("^" ++ "123e4567-e89b-42d") = RegExp.Pattern r /\
    filter (fun d => RegExp.test r (doc_apiKey d)) [sampleDoc; Revoke 3 sampleDoc]
      = filter (fun d => String.eqb (lookupPrefix d) "123e4567-e89b-42d")
          [sampleDoc; Revoke 3 sampleDoc].
Proof.
  split; [reflexivity|]. split; [reflexivity|].
  destruct (lookup_is_prefix_test "123e4567-e89b-42d" [sampleDoc; Revoke 3 sampleDoc]
              eq_refl) as [r [N [_ E]]].
  exists r. split; [exact N | exact (E eq_refl)].
Defined.


(** ** The bootstrap's text functions *)

Module BootstrapFacts.
Import Bootstrap.

Lemma dropStart_every (p : ascii -> bool) (s : string) :
  Js.every p s = true -> dropStart p s = "".
Proof.
  induction s as [|c s IH]; simpl; [reflexivity|].
  intros H; apply andb_prop in H as [H1 H2]. now rewrite H1, IH.
Qed.

Lemma dropStart_app_every (p : ascii -> bool) (pre x : string) :
  Js.every p pre = true -> dropStart p (pre ++ x) = dropStart p x.
Proof.
  induction pre as [|c pre IH]; simpl; [reflexivity|].
  intros H; apply andb_prop in H as [H1 H2]. now rewrite H1, IH.
Qed.

Lemma dropStart_fixed (p : ascii -> bool) (s : string) :
  firstIs p s = false -> dropStart p s = s.
Proof. destruct s as [|c s]; simpl; [reflexivity|]. now intros ->. Qed.

Lemma firstIs_dropStart (p : ascii -> bool) (s : string) :
  firstIs p (dropStart p s) = false.
Proof.
  induction s as [|c s IH]; simpl; [reflexivity|].
  destruct (p c) eqn:E; [exact IH|]. simpl. exact E.
Qed.

Lemma dropEnd_every (p : ascii -> bool) (s : string) :
  Js.every p s = true -> dropEnd p s = "".
Proof.
  induction s as [|c s IH]; simpl; [reflexivity|].
  intros H; apply andb_prop in H as [H1 H2]. now rewrite IH, H1.
Qed.

Lemma dropEnd_app_every (p : ascii -> bool) (m post : string) :
  Js.every p post = true -> dropEnd p (m ++ post) = dropEnd p m.
Proof.
  intros H. induction m as [|c m IH]; simpl.
  - now apply dropEnd_every.
  - now rewrite IH.
Qed.

Lemma dropEnd_fixed (p : ascii -> bool) (s : string) :
  lastIs p s = false -> dropEnd p s = s.
Proof.
  induction s as [|c s IH]; [reflexivity|].
  destruct s as [|d s].
  - simpl. now intros ->.
  - intros H. change (lastIs p (String c (String d s))) with (lastIs p (String d s)) in H.
    cbn [dropEnd]. cbn [dropEnd] in IH. rewrite (IH H). reflexivity.
Qed.

Lemma lastIs_dropEnd (p : ascii -> bool) (s : string) :
  lastIs p (dropEnd p s) = false.
Proof.
  induction s as [|c s IH]; [reflexivity|].
  cbn [dropEnd]. destruct (dropEnd p s) as [|d t] eqn:E.
  - destruct (p c) eqn:Ec; [reflexivity|]. simpl. exact Ec.
  - exact IH.
Qed.

(** Removing a leading run keeps the end of the text. *)
Lemma lastIs_dropStart (p r : ascii -> bool) (s : string) :
  lastIs r s = false -> lastIs r (dropStart p s) = false.
Proof.
  induction s as [|c s IH]; [reflexivity|].
  intros H. cbn [dropStart]. destruct (p c); [|exact H].
  apply IH. destruct s as [|d s]; [reflexivity|exact H].
Qed.

Lemma removeLast_fixed (p : ascii -> bool) (s : string) :
  lastIs p s = false -> removeLast p s = s.
Proof.
  induction s as [|c s IH]; [reflexivity|].
  destruct s as [|d s].
  - simpl. now intros ->.
  - intros H. change (lastIs p (String c (String d s))) with (lastIs p (String d s)) in H.
    cbn [removeLast]. cbn [removeLast] in IH. now rewrite (IH H).
Qed.

Lemma removeLast_snoc (p : ascii -> bool) (m : string) (c : ascii) :
  p c = true -> removeLast p (m ++ String c "") = m.
Proof.
  intros H. induction m as [|x m IH]; simpl.
  - now rewrite H.
  - rewrite IH. destruct m; reflexivity.
Qed.

Lemma lastIs_snoc (p : ascii -> bool) (m : string) (c : ascii) :
  lastIs p (m ++ String c "") = p c.
Proof.
  induction m as [|x m IH]; [reflexivity|].
  simpl. rewrite IH. now destruct m.
Qed.

Lemma stripEnds_wrap (p : ascii -> bool) (m : string) (a b : ascii) :
  p a = true -> p b = true -> stripEnds p (String a (m ++ String b "")) = m.
Proof. intros Ha Hb. unfold stripEnds. rewrite Ha. now apply removeLast_snoc. Qed.

Lemma trim_wrap (ws m ws' : string) :
  Js.every RegExp.is_space ws = true -> Js.every RegExp.is_space ws' = true ->
  firstIs RegExp.is_space m = false -> lastIs RegExp.is_space m = false ->
  trim (ws ++ m ++ ws') = m.
Proof.
  intros W W' F L. unfold trim. rewrite dropStart_app_every by exact W.
  destruct m as [|c m].
  - simpl. rewrite dropStart_every by exact W'. reflexivity.
  - rewrite dropStart_fixed by exact F.
    rewrite dropEnd_app_every by exact W'. now apply dropEnd_fixed.
Qed.

(** *** Global replacement of a fixed text *)

Lemma replaceFrom_skip (pat rep u t : string) :
  replaceFrom pat rep (String.length u) (u ++ t) = replaceFrom pat rep 0 t.
Proof. induction u as [|c u IH]; simpl; [now destruct t|exact IH]. Qed.

Lemma replaceAll_hit (a : ascii) (pat rep t : string) :
  replaceAll (String a pat) rep (String a pat ++ t)
  = rep ++ replaceAll (String a pat) rep t.
Proof.
  unfold replaceAll. cbn [append replaceFrom].
  change (String a (pat ++ t)) with (String a pat ++ t).
  rewrite JsFacts.startsWith_app.
  replace (String.length (String a pat) - 1) with (String.length pat)
    by (cbn [String.length]; lia).
  now rewrite replaceFrom_skip.
Qed.

Lemma replaceAll_miss (pat rep : string) (c : ascii) (s : string) :
  Js.startsWith (String c s) pat = false ->
  replaceAll pat rep (String c s) = String c (replaceAll pat rep s).
Proof. intros H. unfold replaceAll. cbn [replaceFrom]. now rewrite H. Qed.

Lemma replaceAll_absent (pat rep s : string) :
  Js.includes s pat = false -> replaceAll pat rep s = s.
Proof.
  induction s as [|c s IH]; [reflexivity|].
  cbn [Js.includes]. intros H; apply orb_false_elim in H as [H1 H2].
  rewrite replaceAll_miss by exact H1. now rewrite IH.
Qed.

Lemma includes_head (a : ascii) (pat s : string) :
  Js.some (fun c => Ascii.eqb c a) s = false -> Js.includes s (String a pat) = false.
Proof.
  induction s as [|c s IH]; [reflexivity|].
  cbn [Js.some]. intros H; apply orb_false_elim in H as [H1 H2].
  cbn [Js.includes Js.startsWith]. rewrite H1. simpl. now apply IH.
Qed.

Lemma startsWith1 (s : string) (a : ascii) :
  Js.startsWith s (String a "") = firstIs (fun c => Ascii.eqb c a) s.
Proof.
  destruct s as [|c s]; [reflexivity|].
  cbn [Js.startsWith firstIs]. rewrite JsFacts.startsWith_nil. apply andb_true_r.
Qed.

(** Escaping the line feeds of a text without backslashes, and replacing
    back. *)
Lemma unescape_single (pem : string) :
  Js.some isBackslash pem = false ->
  replaceAll "\n" NL (replaceAll NL "\n" pem) = pem.
Proof.
  induction pem as [|c pem IH]; [reflexivity|].
  cbn [Js.some]. intros H; apply orb_false_elim in H as [Hc H].
  destruct (Ascii.eqb c "010") eqn:E.
  - apply Ascii.eqb_eq in E; subst c.
    change (String "010" pem) with (NL ++ pem) at 1. unfold NL at 2.
    rewrite replaceAll_hit. change ("\n" ++ replaceAll NL "\n" pem)
      with ("\n" ++ replaceAll (String "010" "") "\n" pem).
    rewrite (replaceAll_hit "\" "n" NL). fold NL. now rewrite IH.
  - rewrite (replaceAll_miss NL).
    2:{ unfold NL. rewrite startsWith1. exact E. }
    rewrite replaceAll_miss.
    2:{ cbn [Js.startsWith]. unfold isBackslash in Hc. now rewrite Hc. }
    now rewrite IH.
Qed.

Lemma single_has_no_double (pem : string) :
  Js.some isBackslash pem = false ->
  replaceAll "\\n" NL (replaceAll NL "\n" pem) = replaceAll NL "\n" pem.
Proof.
  induction pem as [|c pem IH]; [reflexivity|].
  cbn [Js.some]. intros H; apply orb_false_elim in H as [Hc H].
  destruct (Ascii.eqb c "010") eqn:E.
  - apply Ascii.eqb_eq in E; subst c.
    change (String "010" pem) with (NL ++ pem). unfold NL at 2 4.
    rewrite replaceAll_hit. fold NL. cbn [append].
    rewrite replaceAll_miss by reflexivity.
    rewrite replaceAll_miss by reflexivity.
    now rewrite IH.
  - rewrite (replaceAll_miss NL).
    2:{ unfold NL. rewrite startsWith1. exact E. }
    rewrite replaceAll_miss.
    2:{ cbn [Js.startsWith]. unfold isBackslash in Hc. now rewrite Hc. }
    now rewrite IH.
Qed.

Lemma unescape_double (pem : string) :
  Js.some isBackslash pem = false ->
  replaceAll "\\n" NL (replaceAll NL "\\n" pem) = pem.
Proof.
  induction pem as [|c pem IH]; [reflexivity|].
  cbn [Js.some]. intros H; apply orb_false_elim in H as [Hc H].
  destruct (Ascii.eqb c "010") eqn:E.
  - apply Ascii.eqb_eq in E; subst c.
    change (String "010" pem) with (NL ++ pem) at 1. unfold NL at 2.
    rewrite replaceAll_hit.
    rewrite (replaceAll_hit "\" "\n" NL). fold NL. now rewrite IH.
  - rewrite (replaceAll_miss NL).
    2:{ unfold NL. rewrite startsWith1. exact E. }
    rewrite replaceAll_miss.
    2:{ cbn [Js.startsWith]. unfold isBackslash in Hc. now rewrite Hc. }
    now rewrite IH.
Qed.

Lemma plain_text_untouched (pem : string) :
  Js.some isBackslash pem = false -> replaceAll "\n" NL pem = pem.
Proof. intros H. apply replaceAll_absent. now apply includes_head. Qed.

(** What the replacement of [\n] returns starts with [n] only when its
    argument does. *)
Lemma replaced_first_n (s : string) :
  firstIs (fun c => Ascii.eqb c "n") (replaceAll "\n" NL s) = true ->
  firstIs (fun c => Ascii.eqb c "n") s = true.
Proof.
  destruct s as [|c s]; [discriminate|].
  unfold replaceAll. cbn [replaceFrom].
  destruct (Js.startsWith (String c s) "\n"); [discriminate|].
  now cbn.
Qed.

Lemma no_escape_left_from (k : nat) (s : string) :
  Js.includes (replaceFrom "\n" NL k s) "\n" = false.
Proof.
  revert k; induction s as [|c s IH]; intros k; [reflexivity|].
  cbn [replaceFrom]. destruct k as [|k]; [|apply IH].
  destruct (Js.startsWith (String c s) "\n") eqn:E.
  - cbn. apply IH.
  - cbn [Js.includes]. rewrite IH, orb_false_r.
    cbn [Js.startsWith]. cbn [Js.startsWith] in E.
    destruct (Ascii.eqb c "\"); [|reflexivity]. cbn [andb] in *.
    rewrite startsWith1 in *.
    destruct (firstIs (fun c0 => Ascii.eqb c0 "n") (replaceFrom "\n" NL 0 s)) eqn:F;
      [|reflexivity].
    apply replaced_first_n in F. congruence.
Qed.

Lemma double_contains_single (s : string) :
  Js.includes s "\n" = false -> Js.includes s "\\n" = false.
Proof.
  induction s as [|c s IH]; [reflexivity|].
  cbn [Js.includes]. intros H; apply orb_false_elim in H as [H1 H2].
  rewrite (IH H2), orb_false_r.
  destruct s as [|d s]; [cbn; apply andb_false_r|].
  cbn [Js.includes] in H2. apply orb_false_elim in H2 as [H2 _].
  cbn [Js.startsWith]. cbn [Js.startsWith] in H2.
  destruct (Ascii.eqb c "\"); [|reflexivity].
  cbn [andb]. exact H2.
Qed.

(** Double-escaped line feeds after the replacement of [\n]: each leaves a
    backslash. *)
Lemma double_leaves_backslash (pem : string) :
  Js.some isBackslash pem = false -> Js.some isLineFeed pem = true ->
  Js.some isBackslash (replaceAll "\n" NL (replaceAll NL "\\n" pem)) = true.
Proof.
  induction pem as [|c pem IH]; [discriminate|].
  cbn [Js.some]. intros H; apply orb_false_elim in H as [Hc H].
  unfold isLineFeed at 1. destruct (Ascii.eqb c "010") eqn:E.
  - intros _. apply Ascii.eqb_eq in E; subst c.
    change (String "010" pem) with (NL ++ pem). unfold NL at 2.
    rewrite replaceAll_hit. cbn [append].
    rewrite replaceAll_miss by reflexivity. reflexivity.
  - cbn [orb]. intros L.
    rewrite (replaceAll_miss NL).
    2:{ unfold NL. rewrite startsWith1. exact E. }
    rewrite replaceAll_miss.
    2:{ cbn [Js.startsWith]. unfold isBackslash in Hc. now rewrite Hc. }
    cbn [Js.some]. rewrite Hc. cbn [orb]. now apply IH.
Qed.

End BootstrapFacts.

(** ** The private key and the certificate URL *)

Section PrivateKey.
Import Bootstrap BootstrapFacts.

Lemma quote_not_space (c : ascii) : isQuote c = true -> RegExp.is_space c = false.
Proof. destruct c as [[] [] [] [] [] [] [] []]; vm_compute; congruence. Qed.

Lemma truthy_app_cons (ws : string) (c : ascii) (s : string) :
  truthy (ws ++ String c s) = true.
Proof. now destruct ws. Qed.

(** The text between the quotes is what is left after trimming and
    stripping. *)
Lemma quoted_body (ws ws' body : string) (a b : ascii) :
  isQuote a = true -> isQuote b = true ->
  Js.every RegExp.is_space ws = true -> Js.every RegExp.is_space ws' = true ->
  stripEnds isQuote (trim (ws ++ String a (body ++ String b "") ++ ws')) = body.
Proof.
  intros Ha Hb W W'. rewrite trim_wrap; auto.
  - now apply stripEnds_wrap.
  - cbn [firstIs]. now apply quote_not_space.
  - change (String a (body ++ String b "")) with (String a body ++ String b "").
    rewrite lastIs_snoc. now apply quote_not_space.
Qed.

(** X1. A key whose line feeds are written as backslash-n, put between
    quotes (of either kind, not necessarily the same) with white space
    around, is finalized to the key itself. *)
Theorem finalizedKey_single_escaped (pem ws ws' : string) (a b : ascii) :
  Js.some isBackslash pem = false ->
  isQuote a = true -> isQuote b = true ->
  Js.every RegExp.is_space ws = true -> Js.every RegExp.is_space ws' = true ->
  finalizedKey
    (Some (ws ++ String a (replaceAll NL "\n" pem ++ String b "") ++ ws'))
  = Some pem.
Proof.
  intros P Ha Hb W W'. unfold finalizedKey.
  cbn [append]. rewrite truthy_app_cons.
  change (ws ++ String a ((replaceAll NL "\n" pem ++ String b "") ++ ws'))
    with (ws ++ String a (replaceAll NL "\n" pem ++ String b "") ++ ws').
  rewrite quoted_body by assumption.
  now rewrite single_has_no_double, unescape_single.
Qed.

Lemma finalizedKey_single_escaped_witness :
  Js.some isBackslash (String "a" (NL ++ "b" ++ NL)) = false /\
  isQuote "'" = true /\
  Js.every RegExp.is_space " " = true /\
  finalizedKey (Some " 'a\nb\n' ") = Some (String "a" (NL ++ "b" ++ NL)).
Proof.
  split; [reflexivity|]. split; [reflexivity|]. split; [reflexivity|].
  exact (finalizedKey_single_escaped (String "a" (NL ++ "b" ++ NL)) " " " " "'" "'"
           eq_refl eq_refl eq_refl eq_refl eq_refl).
Defined.

(** X2. The same for a key whose line feeds are written as two backslashes
    and n. *)
Theorem finalizedKey_double_escaped (pem ws ws' : string) (a b : ascii) :
  Js.some isBackslash pem = false ->
  isQuote a = true -> isQuote b = true ->
  Js.every RegExp.is_space ws = true -> Js.every RegExp.is_space ws' = true ->
  finalizedKey
    (Some (ws ++ String a (replaceAll NL "\\n" pem ++ String b "") ++ ws'))
  = Some pem.
Proof.
  intros P Ha Hb W W'. unfold finalizedKey.
  cbn [append]. rewrite truthy_app_cons.
  change (ws ++ String a ((replaceAll NL "\\n" pem ++ String b "") ++ ws'))
    with (ws ++ String a (replaceAll NL "\\n" pem ++ String b "") ++ ws').
  rewrite quoted_body by assumption.
  now rewrite unescape_double, plain_text_untouched.
Qed.

Lemma finalizedKey_double_escaped_witness :
  Js.some isBackslash (String "a" (NL ++ "b" ++ NL)) = false /\
  isQuote "034" = true /\ isQuote "'" = true /\
  Js.every RegExp.is_space "" = true /\
  finalizedKey (Some (String "034" "a\\nb\\n'")) = Some (String "a" (NL ++ "b" ++ NL)).
Proof.
  split; [reflexivity|]. split; [reflexivity|]. split; [reflexivity|].
  split; [reflexivity|].
  exact (finalizedKey_double_escaped (String "a" (NL ++ "b" ++ NL)) "" "" "034" "'"
           eq_refl eq_refl eq_refl eq_refl eq_refl).
Defined.

(** X3. Whatever the raw value, the finalized key has no backslash-n left
    in it. *)
Theorem finalizedKey_no_escape_left (rawPrivateKey : option string) (key : string) :
  finalizedKey rawPrivateKey = Some key -> Js.includes key "\n" = false.
Proof.
  unfold finalizedKey. destruct rawPrivateKey as [raw|]; [|discriminate].
  destruct (truthy raw); [|discriminate].
  intros E; injection E as <-. apply (no_escape_left_from 0).
Qed.

Lemma finalizedKey_no_escape_left_witness :
  finalizedKey (Some "x\\\n\ny\n\\n") = Some (String "x" ("\" ++ NL ++ NL ++ "y" ++ NL ++ NL)) /\
  Js.includes (String "x" ("\" ++ NL ++ NL ++ "y" ++ NL ++ NL)) "\n" = false.
Proof.
  split; [reflexivity|].
  exact (finalizedKey_no_escape_left (Some "x\\\n\ny\n\\n") _ eq_refl).
Defined.

End PrivateKey.

Section CleanUp.
Import Bootstrap BootstrapFacts.

Variables p r : ascii -> bool.
Hypothesis apart : forall c, r c = true -> p c = false.

Lemma some_dropStart (s : string) : Js.some r (dropStart p s) = Js.some r s.
Proof.
  induction s as [|c s IH]; [reflexivity|].
  cbn [dropStart]. destruct (p c) eqn:E; [|reflexivity].
  cbn [Js.some]. destruct (r c) eqn:R; [|exact IH].
  apply apart in R. congruence.
Qed.

Lemma some_dropEnd (s : string) : Js.some r (dropEnd p s) = Js.some r s.
Proof.
  induction s as [|c s IH]; [reflexivity|].
  cbn [dropEnd Js.some]. destruct (dropEnd p s) as [|d t].
  - rewrite <- IH. cbn [Js.some]. destruct (p c) eqn:E; [|reflexivity].
    destruct (r c) eqn:R; [|reflexivity]. apply apart in R. congruence.
  - rewrite <- IH. reflexivity.
Qed.

Lemma some_removeLast (s : string) : Js.some r (removeLast p s) = Js.some r s.
Proof.
  induction s as [|c s IH]; [reflexivity|].
  destruct s as [|d s].
  - cbn. destruct (p c) eqn:E; [|reflexivity].
    destruct (r c) eqn:R; [|reflexivity]. apply apart in R. congruence.
  - cbn [removeLast Js.some]. cbn [removeLast Js.some] in IH. now rewrite IH.
Qed.

Lemma some_stripEnds (s : string) : Js.some r (stripEnds p s) = Js.some r s.
Proof.
  unfold stripEnds. rewrite some_removeLast.
  destruct s as [|c s]; [reflexivity|].
  destruct (p c) eqn:E; [|reflexivity].
  cbn [Js.some]. destruct (r c) eqn:R; [|reflexivity].
  apply apart in R. congruence.
Qed.

End CleanUp.

Section FirstRevision.
Import Bootstrap BootstrapFacts.

Lemma backslash_not_space (c : ascii) : isBackslash c = true -> RegExp.is_space c = false.
Proof. intros E; apply Ascii.eqb_eq in E; now subst c. Qed.

Lemma backslash_not_double (c : ascii) : isBackslash c = true -> isDoubleQuote c = false.
Proof. intros E; apply Ascii.eqb_eq in E; now subst c. Qed.

Lemma backslash_not_single (c : ascii) : isBackslash c = true -> isSingleQuote c = false.
Proof. intros E; apply Ascii.eqb_eq in E; now subst c. Qed.

Lemma escaped_truthy (esc pem : string) :
  Js.some isLineFeed pem = true -> truthy esc = true ->
  truthy (replaceAll NL esc pem) = true.
Proof.
  destruct pem as [|c pem]; [discriminate|]. intros _ T.
  unfold replaceAll. cbn [replaceFrom].
  destruct (Js.startsWith (String c pem) NL); [|reflexivity].
  now destruct esc.
Qed.

(** X4. In the first revision the replacement of backslash-n runs before
    the one of the doubled form, which then finds nothing: the clean-up is
    the same without it.  A key whose line feeds were written with two
    backslashes keeps a backslash. *)
Theorem cleanPrivateKey_double_escape_unhandled :
  (forall raw,
      cleanPrivateKey (Some raw)
      = if truthy raw
        then Some (trim (stripEnds isSingleQuote
                           (stripEnds isDoubleQuote (replaceAll "\n" NL raw))))
        else None) /\
  (forall pem,
      Js.some isBackslash pem = false -> Js.some isLineFeed pem = true ->
      exists key,
        cleanPrivateKey (Some (replaceAll NL "\\n" pem)) = Some key /\
        Js.some isBackslash key = true /\ key <> pem).
Proof.
  assert (D : forall raw,
             replaceAll "\\n" NL (replaceAll "\n" NL raw) = replaceAll "\n" NL raw).
  { intros raw. apply replaceAll_absent, double_contains_single.
    apply (no_escape_left_from 0). }
  split.
  - intros raw. unfold cleanPrivateKey. now rewrite D.
  - intros pem P L. unfold cleanPrivateKey.
    rewrite escaped_truthy by (exact L || reflexivity). rewrite D.
    eexists; split; [reflexivity|].
    assert (B : Js.some isBackslash
                  (trim (stripEnds isSingleQuote
                           (stripEnds isDoubleQuote
                              (replaceAll "\n" NL (replaceAll NL "\\n" pem))))) = true).
    { unfold trim.
      rewrite (some_dropEnd _ _ backslash_not_space),
              (some_dropStart _ _ backslash_not_space),
              (some_stripEnds _ _ backslash_not_single),
              (some_stripEnds _ _ backslash_not_double).
      now apply double_leaves_backslash. }
    split; [exact B|]. intros E. rewrite E in B. congruence.
Qed.

Lemma cleanPrivateKey_double_escape_unhandled_witness :
  Js.some isBackslash (String "a" (NL ++ "b")) = false /\
  Js.some isLineFeed (String "a" (NL ++ "b")) = true /\
  cleanPrivateKey (Some "a\\nb") = Some (String "a" ("\" ++ NL ++ "b")) /\
  exists key,
    cleanPrivateKey (Some (replaceAll NL "\\n" (String "a" (NL ++ "b")))) = Some key /\
    Js.some isBackslash key = true /\ key <> String "a" (NL ++ "b").
Proof.
  split; [reflexivity|]. split; [reflexivity|]. split; [reflexivity|].
  exact (proj2 cleanPrivateKey_double_escape_unhandled
           (String "a" (NL ++ "b")) eq_refl eq_refl).
Defined.

Lemma append_assoc (a b c : string) : a ++ b ++ c = (a ++ b) ++ c.
Proof. induction a as [|x a IH]; simpl; [reflexivity|now rewrite IH]. Qed.

Lemma lastIs_app_cons (q : ascii -> bool) (a : string) (c : ascii) (b : string) :
  lastIs q (a ++ String c b) = lastIs q (String c b).
Proof.
  induction a as [|x a IH]; [reflexivity|].
  cbn [append]. rewrite <- IH. now destruct a.
Qed.

(** X5. The cleaned certificate URL never begins with a quote and never
    ends with a quote or a comma. *)
Theorem certUrl_clean_ends (raw : option string) (url : string) :
  certUrl raw = Some url ->
  firstIs isQuote url = false /\ lastIs isQuoteOrComma url = false.
Proof.
  unfold certUrl. destruct raw as [u|]; [|discriminate].
  destruct (truthy u); [|discriminate]. intros E; injection E as <-.
  split; [apply firstIs_dropStart|].
  apply lastIs_dropStart, lastIs_dropEnd.
Qed.

Lemma certUrl_clean_ends_witness :
  certUrl (Some "''https://x.y/c,d',',") = Some "https://x.y/c,d" /\
  firstIs isQuote "https://x.y/c,d" = false /\
  lastIs isQuoteOrComma "https://x.y/c,d" = false.
Proof.
  split; [reflexivity|].
  exact (certUrl_clean_ends (Some "''https://x.y/c,d',',") _ eq_refl).
Defined.

(** X6. A URL with quotes in front and quotes and commas after it is
    cleaned to the URL itself, provided the URL is not empty, does not begin
    with a quote and does not end with a quote or a comma. *)
Theorem certUrl_unwraps (pre url post : string) :
  Js.every isQuote pre = true -> Js.every isQuoteOrComma post = true ->
  truthy url = true ->
  firstIs isQuote url = false -> lastIs isQuoteOrComma url = false ->
  certUrl (Some (pre ++ url ++ post)) = Some url.
Proof.
  intros Hpre Hpost T F L. unfold certUrl.
  destruct url as [|c url]; [discriminate|].
  assert (T' : truthy (pre ++ String c url ++ post) = true) by now destruct pre.
  rewrite T'.
  pose proof (append_assoc pre (String c url) post) as A.
  assert (L' : lastIs isQuoteOrComma (pre ++ String c url) = false)
    by now rewrite lastIs_app_cons.
  assert (E : dropEnd isQuoteOrComma (pre ++ String c url ++ post)
              = pre ++ String c url).
  { rewrite A, dropEnd_app_every by exact Hpost. now apply dropEnd_fixed. }
  rewrite E, dropStart_app_every by exact Hpre.
  now rewrite dropStart_fixed.
Qed.

Lemma certUrl_unwraps_witness :
  Js.every isQuote "'" = true /\ Js.every isQuoteOrComma "'," = true /\
  truthy "https://x.y/c" = true /\
  firstIs isQuote "https://x.y/c" = false /\
  lastIs isQuoteOrComma "https://x.y/c" = false /\
  certUrl (Some "'https://x.y/c',") = Some "https://x.y/c".
Proof.
  split; [reflexivity|]. split; [reflexivity|]. split; [reflexivity|].
  split; [reflexivity|]. split; [reflexivity|].
  exact (certUrl_unwraps "'" "https://x.y/c" "'," eq_refl eq_refl eq_refl eq_refl eq_refl).
Defined.

End FirstRevision.

(** ** Allowed origins *)

Section Origins.
Import Bootstrap BootstrapFacts.

Lemma existsb_eqb_In (o : string) (l : list string) :
  existsb (String.eqb o) l = true <-> In o l.
Proof.
  rewrite existsb_exists. split.
  - intros [x [I E]]. apply String.eqb_eq in E. now subst x.
  - intros I. exists o. split; [exact I|apply String.eqb_refl].
Qed.

Lemma filterBoolean_In (s : string) (xs : list (option string)) :
  In s (filterBoolean xs) <-> In (Some s) xs /\ truthy s = true.
Proof.
  induction xs as [|[x|] xs IH]; cbn [filterBoolean].
  - simpl. tauto.
  - destruct (truthy x) eqn:T; cbn [In]; rewrite IH; split.
    + intros [->|[I T']]; [now split; [left|]|]. split; [now right|exact T'].
    + intros [[E|I] T']; [injection E as ->; now left|right; now split].
    + intros [I T']. split; [now right|exact T'].
    + intros [[E|I] T']; [injection E as ->; congruence|now split].
  - cbn [In]. rewrite IH. split.
    + intros [I T]. split; [now right|exact T].
    + intros [[E|I] T]; [discriminate|now split].
Qed.

Lemma dedupeFrom_In (x : string) (xs seen : list string) :
  In x (dedupeFrom seen xs) <-> In x xs /\ ~ In x seen.
Proof.
  revert seen; induction xs as [|y xs IH]; intros seen; cbn [dedupeFrom].
  - simpl. tauto.
  - destruct (existsb (String.eqb y) seen) eqn:E.
    + apply existsb_eqb_In in E. rewrite IH. cbn [In]. split.
      * intros [I N]. split; [now right|exact N].
      * intros [[->|I] N]; [contradiction|now split].
    + assert (Ny : ~ In y seen).
      { intros I. apply existsb_eqb_In in I. congruence. }
      cbn [In]. rewrite IH. cbn [In]. split.
      * intros [->|[I N]]; [now split; [left|]|]. split; [now right|tauto].
      * intros [[->|I] N]; [now left|].
        destruct (String.eqb_spec y x) as [->|D]; [now left|].
        right. split; [exact I|]. intros [F|F]; [contradiction|contradiction].
Qed.

Lemma dedupeFrom_NoDup (xs seen : list string) : NoDup (dedupeFrom seen xs).
Proof.
  revert seen; induction xs as [|y xs IH]; intros seen; cbn [dedupeFrom].
  - constructor.
  - destruct (existsb (String.eqb y) seen); [apply IH|].
    constructor; [|apply IH].
    rewrite dedupeFrom_In. intros [_ N]. apply N. now left.
Qed.

(** X7. Normalising an origin removes the white space around it and one
    slash at its end, and nothing else; a second slash stays. *)
Theorem normalizeOrigin_strips (ws u ws' : string) :
  Js.every RegExp.is_space ws = true -> Js.every RegExp.is_space ws' = true ->
  firstIs RegExp.is_space u = false -> lastIs RegExp.is_space u = false ->
  normalizeOrigin (ws ++ u ++ "/" ++ ws') = u /\
  (lastIs isSlash u = false -> normalizeOrigin (ws ++ u ++ ws') = u).
Proof.
  intros W W' F L. unfold normalizeOrigin. split.
  - rewrite (append_assoc u "/" ws'). rewrite trim_wrap; auto.
    + now apply removeLast_snoc.
    + destruct u; [reflexivity|exact F].
    + now rewrite lastIs_snoc.
  - intros S. rewrite trim_wrap; auto. now apply removeLast_fixed.
Qed.

Lemma normalizeOrigin_strips_witness :
  Js.every RegExp.is_space " " = true /\
  firstIs RegExp.is_space "https://a.b/" = false /\
  lastIs RegExp.is_space "https://a.b/" = false /\
  normalizeOrigin " https://a.b// " = "https://a.b/" /\
  normalizeOrigin " https://a.b " = "https://a.b".
Proof.
  split; [reflexivity|]. split; [reflexivity|]. split; [reflexivity|].
  split.
  - exact (proj1 (normalizeOrigin_strips " " "https://a.b/" " "
                    eq_refl eq_refl eq_refl eq_refl)).
  - exact (proj2 (normalizeOrigin_strips " " "https://a.b" " "
                    eq_refl eq_refl eq_refl eq_refl) eq_refl).
Defined.

(** X8. The later revision, for every environment: the list of allowed
    origins has no duplicates and holds exactly the normalised forms of the
    non-empty configured values and of the fixed fallback; a request is let
    through exactly when it has no [Origin] header, an empty one, or one that
    is in the list, and is otherwise blocked with a message naming the
    origin. *)
Theorem normalizedOrigins_policy (e : Env) :
  NoDup (normalizedOrigins e) /\
  In "https://textbee.arcofs.app" (normalizedOrigins e) /\
  (forall o,
      In o (normalizedOrigins e) <->
      exists v, In (Some v) (rawOrigins e) /\ truthy v = true /\ normalizeOrigin v = o) /\
  (forall origin,
      corsOrigin (normalizedOrigins e) origin = Allow <->
      origin = None \/ origin = Some "" \/
      exists o, origin = Some o /\ In o (normalizedOrigins e)) /\
  (forall o,
      corsOrigin (normalizedOrigins e) (Some o) <> Allow ->
      corsOrigin (normalizedOrigins e) (Some o)
      = Block ("CORS blocked for origin: " ++ o)).
Proof.
  assert (M : forall o,
             In o (normalizedOrigins e) <->
             exists v, In (Some v) (rawOrigins e) /\ truthy v = true
                       /\ normalizeOrigin v = o).
  { intros o. unfold normalizedOrigins. rewrite dedupeFrom_In, in_map_iff. split.
    - intros [[v [E I]] _]. apply filterBoolean_In in I as [I T]. now exists v.
    - intros [v [I [T E]]]. split; [|intros []].
      exists v. split; [exact E|]. now apply filterBoolean_In. }
  split; [apply dedupeFrom_NoDup|]. split; [|split; [exact M|split]].
  - apply M. exists "https://textbee.arcofs.app".
    split; [|split; reflexivity]. unfold rawOrigins. simpl. tauto.
  - intros [o|]; cbn [corsOrigin]; [|tauto].
    destruct o as [|c o]; [cbn; tauto|]. cbn [truthy negb orb].
    destruct (existsb (String.eqb (String c o)) (normalizedOrigins e)) eqn:E.
    + apply existsb_eqb_In in E. split; [|reflexivity].
      intros _. right. right. now exists (String c o).
    + split; [discriminate|].
      intros [D|[D|[o' [D I]]]]; try discriminate.
      injection D as <-. apply existsb_eqb_In in I. congruence.
  - intros o. cbn [corsOrigin].
    destruct (negb (truthy o) || existsb (String.eqb o) (normalizedOrigins e));
      [congruence|reflexivity].
Qed.

(** X9. [main.ts], for every environment: the header is compared with the
    configured values as they are.  A request is let through exactly when it
    has no [Origin] header, an empty one, or one equal to a non-empty
    configured value (the domain variable counting with [https://] in
    front); otherwise it is blocked with a message naming the origin. *)
Theorem allowedOrigins_policy (e : Env) :
  (forall origin,
      corsOrigin (allowedOrigins e) origin = Allow <->
      origin = None \/ origin = Some "" \/
      exists o, origin = Some o /\ truthy o = true /\
                In (Some o) [FRONTEND_URL e; NEXT_PUBLIC_SITE_URL e;
                             SERVICE_URL_TEXTBEE_WEB e; fqdnOrigin e]) /\
  (forall o,
      corsOrigin (allowedOrigins e) (Some o) <> Allow ->
      corsOrigin (allowedOrigins e) (Some o)
      = Block ("CORS blocked for origin: " ++ o)) /\
  ~ In "" (allowedOrigins e).
Proof.
  split; [|split].
  - intros [o|]; cbn [corsOrigin]; [|tauto].
    destruct o as [|c o]; [cbn; tauto|]. cbn [truthy negb orb].
    destruct (existsb (String.eqb (String c o)) (allowedOrigins e)) eqn:E.
    + apply existsb_eqb_In in E. unfold allowedOrigins in E.
      apply filterBoolean_In in E as [I T]. split; [|reflexivity].
      intros _. right. right. exists (String c o). now split.
    + split; [discriminate|].
      intros [D|[D|[o' [D [T I]]]]]; try discriminate.
      injection D as <-.
      assert (I' : In (String c o) (allowedOrigins e))
        by (unfold allowedOrigins; now apply filterBoolean_In).
      apply existsb_eqb_In in I'. congruence.
  - intros o. cbn [corsOrigin].
    destruct (negb (truthy o) || existsb (String.eqb o) (allowedOrigins e));
      [congruence|reflexivity].
  - unfold allowedOrigins. rewrite filterBoolean_In. intros [_ T]. discriminate.
Qed.

Lemma normalizedOrigins_policy_witness :
  let e := mkEnv (Some " https://a.b/ ") (Some "https://a.b") (Some "") None in
  In (Some " https://a.b/ ") (rawOrigins e) /\
  In "https://a.b" (normalizedOrigins e) /\
  corsOrigin (normalizedOrigins e) (Some "https://a.b") = Allow /\
  corsOrigin (normalizedOrigins e) (Some "https://a.b/")
  = Block "CORS blocked for origin: https://a.b/".
Proof.
  intros e.
  destruct (normalizedOrigins_policy e) as [_ [_ [M [A B]]]].
  assert (R : In (Some " https://a.b/ ") (rawOrigins e)) by (simpl; tauto).
  assert (I : In "https://a.b" (normalizedOrigins e)).
  { apply (proj2 (M "https://a.b")). exists " https://a.b/ ".
    split; [exact R|split; reflexivity]. }
  split; [exact R|]. split; [exact I|]. split.
  - apply (proj2 (A (Some "https://a.b"))). right. right.
    exists "https://a.b". split; [reflexivity|exact I].
  - apply (B "https://a.b/"). discriminate.
Defined.

Lemma allowedOrigins_policy_witness :
  let e := mkEnv (Some "https://a.b/") None (Some "") (Some "c.d") in
  corsOrigin (allowedOrigins e) (Some "https://c.d") = Allow /\
  corsOrigin (allowedOrigins e) (Some "https://a.b")
  = Block "CORS blocked for origin: https://a.b".
Proof.
  intros e.
  destruct (allowedOrigins_policy e) as [A [B _]].
  split.
  - apply (proj2 (A (Some "https://c.d"))). right. right.
    exists "https://c.d". split; [reflexivity|]. split; [reflexivity|].
    simpl. tauto.
  - apply (B "https://a.b"). discriminate.
Defined.

End Origins.

(** ** More on the validation *)

Lemma plain_flip_rejected_witness :
  Uuid.is_v4 sampleKey = true /\
  String.get 3 sampleKey <> Some "f"%char /\
  RegExp.is_syntax_char "f" = false /\
  validate BcryptDouble.compareSync (replaceAt sampleKey 3 "f") sampleDoc
  = ([DbFind "^123f4567-e89b-42d" false], Logged RegexFailed).
Proof.
  assert (N : String.get 3 sampleKey <> Some "f"%char) by discriminate.
  split; [reflexivity|]. split; [exact N|]. split; [reflexivity|].
  assert (L : 3 < 17) by lia.
  exact (proj1 (plain_flip_rejected unit BcryptDouble.hash BcryptDouble.compareSync
                  sampleKey tt 3 "f" eq_refl N eq_refl) L).
Defined.

Lemma startsWith_same_length (a b p : string) :
  String.length p = String.length a ->
  Js.startsWith (a ++ b) p = String.eqb a p.
Proof.
  intros L. destruct (String.eqb_spec a p) as [->|N].
  - apply JsFacts.startsWith_app.
  - destruct (Js.startsWith (a ++ b) p) eqn:S; [|reflexivity].
    apply JsFacts.startsWith_substr in S. rewrite L, JsFacts.substr_app in S.
    congruence.
Qed.

(** X11. Against the document of a generated key, an incoming key of at
    least 17 characters whose prefix has no syntax character is verified
    exactly when its first 17 characters are those of the generated key and
    bcrypt accepts it; when the prefixes differ bcrypt is not called. *)
Theorem success_iff_prefix_and_bcrypt (Salt : Type)
    (bcrypt_hash : string -> nat -> Salt -> string)
    (bcrypt_compareSync : string -> string -> bool)
    (apiKey incomingApiKey : string) (salt : Salt) :
  Uuid.is_v4 apiKey = true ->
  17 <= String.length incomingApiKey ->
  RegExp.plain (prefix incomingApiKey) = true ->
  let run := validate bcrypt_compareSync incomingApiKey
               (mockDbApiKey Salt bcrypt_hash apiKey salt) in
  (snd run = Logged Success <->
   prefix incomingApiKey = prefix apiKey /\
   bcrypt_compareSync incomingApiKey (bcrypt_hash apiKey 10 salt) = true) /\
  (prefix incomingApiKey <> prefix apiKey ->
   run = ([DbFind ("^" ++ prefix incomingApiKey) false], Logged RegexFailed)).
Proof.
  intros H L P run. subst run. rewrite (validate_plain _ _ _ P).
  cbn [mockDbApiKey doc_apiKey doc_hashedApiKey]. unfold storedApiKey, hashedApiKey.
  fold (prefix apiKey).
  rewrite startsWith_same_length.
  2:{ rewrite (length_prefix_v4 _ H). unfold prefix. now apply JsFacts.length_substr. }
  destruct (String.eqb_spec (prefix apiKey) (prefix incomingApiKey)) as [E|N].
  - split.
    + destruct (bcrypt_compareSync incomingApiKey (bcrypt_hash apiKey 10 salt));
        cbn [snd]; split.
      * intros _. now split.
      * reflexivity.
      * discriminate.
      * intros [_ F]. discriminate.
    + intros D. now contradiction D.
  - split.
    + cbn [snd]. split; [discriminate|]. intros [E _]. now contradiction N.
    + reflexivity.
Qed.

Lemma success_iff_prefix_and_bcrypt_witness :
  Uuid.is_v4 sampleKey = true /\
  17 <= String.length "123e4567-e89b-42d3-0000-000000000000" /\
  RegExp.plain (prefix "123e4567-e89b-42d3-0000-000000000000") = true /\
  (snd (validate BcryptDouble.compareSync "123e4567-e89b-42d3-0000-000000000000"
          sampleDoc) = Logged Success <->
   prefix "123e4567-e89b-42d3-0000-000000000000" = prefix sampleKey /\
   BcryptDouble.compareSync "123e4567-e89b-42d3-0000-000000000000"
     (BcryptDouble.hash sampleKey 10 tt) = true).
Proof.
  assert (L : 17 <= String.length "123e4567-e89b-42d3-0000-000000000000")
    by (simpl; lia).
  split; [reflexivity|]. split; [exact L|]. split; [reflexivity|].
  exact (proj1 (success_iff_prefix_and_bcrypt unit BcryptDouble.hash
                  BcryptDouble.compareSync sampleKey
                  "123e4567-e89b-42d3-0000-000000000000" tt eq_refl L eq_refl)).
Defined.

(** ** Dots in the presented prefix *)

Module DottedFacts.
Import RegExp.

Lemma parse_dotted (p rest : string) :
  plainOrDot p = true ->
  forall stack f,
    parse stack f Normal (p ++ rest) =
    parse stack (mkFrame (alts f) (rev (dotted p) ++ terms f)
                   (match p with "" => q f | _ => Atom end)) Normal rest.
Proof.
  induction p as [|c p IH]; intros Hp stack f.
  - simpl. now destruct f.
  - unfold plainOrDot in Hp. cbn [Js.every] in Hp.
    apply andb_prop in Hp as [Hc Hp].
    cbn [append parse dotted].
    destruct (Ascii.eqb c ".") eqn:E.
    + apply Ascii.eqb_eq in E; subst c. change (ctype_of ".") with CDot. cbv iota.
      rewrite IH by assumption. cbn [push_atom alts terms q rev].
      rewrite <- app_assoc. cbn [app]. now destruct p.
    + cbn [orb] in Hc. apply negb_true_iff, RegExpFacts.plain_ctype in Hc.
      rewrite Hc. rewrite IH by assumption. cbn [push_atom alts terms q rev].
      rewrite <- app_assoc. cbn [app]. now destruct p.
Qed.

Lemma new_anchored_dotted (p : string) :
  plainOrDot p = true ->
  new ("^" ++ p) = Pattern (seq_of (AssertStart :: dotted p)).
Proof.
  intros Hp. unfold new. cbn [append parse].
  change (ctype_of "^") with CCaret. cbv iota.
  rewrite <- (JsFacts.append_empty p) at 1.
  rewrite (parse_dotted p "" Hp). cbn [parse alts terms push_assert frame0].
  unfold close. cbn [alts terms rev app alt_of].
  rewrite rev_app_distr, rev_involutive. reflexivity.
Qed.

Lemma run_dotted (p : string) (start : bool) (s : string) :
  run (seq_of (dotted p)) start s (fun _ _ => true) = startsWithDotted s p.
Proof.
  revert start s; induction p as [|c p IH]; intros start s.
  - simpl. now destruct s.
  - cbn [dotted seq_of fold_right]. destruct s as [|x s].
    + destruct (Ascii.eqb c "."); reflexivity.
    + cbn [startsWithDotted]. destruct (Ascii.eqb c "."); cbn [run]; f_equal; apply IH.
Qed.

Lemma test_anchored (ts : list node) (s : string) :
  test (seq_of (AssertStart :: ts)) s = run (seq_of ts) true s (fun _ _ => true).
Proof.
  unfold test. cbn [seq_of fold_right].
  destruct s as [|x s]; cbn [search].
  - cbn [run andb]. apply orb_false_r.
  - rewrite RegExpFacts.search_anchored_later, orb_false_r. reflexivity.
Qed.

Lemma fits_every (P : ascii -> bool) (tpl s : string) :
  (forall c, Uuid.is_hex c = true -> P c = true) ->
  (forall c, Uuid.is_variant c = true -> P c = true) ->
  Js.every P tpl = true -> Uuid.fits tpl s = true -> Js.every P s = true.
Proof.
  intros Hx Hy.
  revert s; induction tpl as [|t tpl IH]; intros [|c s] Ht H;
    try reflexivity; try discriminate.
  cbn [Js.every Uuid.fits] in *.
  apply andb_prop in Ht as [Ht1 Ht2]. apply andb_prop in H as [H1 H2].
  rewrite (IH _ Ht2 H2), andb_true_r.
  unfold Uuid.slot in H1.
  destruct (Ascii.eqb t "x"); [now apply Hx|].
  destruct (Ascii.eqb t "y"); [now apply Hy|].
  apply Ascii.eqb_eq in H1. now subst c.
Qed.

Lemma hex_not_terminator (c : ascii) :
  Uuid.is_hex c = true -> negb (is_line_terminator c) = true.
Proof. destruct c as [[] [] [] [] [] [] [] []]; vm_compute; congruence. Qed.

Lemma variant_not_terminator (c : ascii) :
  Uuid.is_variant c = true -> negb (is_line_terminator c) = true.
Proof. destruct c as [[] [] [] [] [] [] [] []]; vm_compute; congruence. Qed.

(** Dots only, over a text without line terminators that is long enough. *)
Lemma startsWithDotted_dots (a b p : string) :
  Js.every (fun c => Ascii.eqb c ".") p = true ->
  Js.every (fun c => negb (is_line_terminator c)) a = true ->
  String.length p = String.length a ->
  startsWithDotted (a ++ b) p = true.
Proof.
  revert a; induction p as [|x p IH]; intros [|y a] Hp Ha L;
    cbn [String.length] in L; try discriminate.
  { now destruct b. }
  cbn [Js.every] in Hp, Ha.
  apply andb_prop in Hp as [Hx Hp]. apply andb_prop in Ha as [Hy Ha].
  cbn [append startsWithDotted]. rewrite Hx, Hy. cbn [andb]. apply IH; auto.
Qed.

End DottedFacts.

(** X12. When the presented prefix has dots and otherwise no syntax
    character, each dot stands for any character of the masked key: the
    document is found exactly when the other characters agree, and bcrypt
    then decides.  A key that begins with 17 dots finds the document of
    every generated key. *)
Theorem dots_are_wildcards (Salt : Type)
    (bcrypt_hash : string -> nat -> Salt -> string)
    (bcrypt_compareSync : string -> string -> bool) :
  (forall incomingApiKey doc,
      plainOrDot (prefix incomingApiKey) = true ->
      validate bcrypt_compareSync incomingApiKey doc =
      if startsWithDotted (doc_apiKey doc) (prefix incomingApiKey) then
        ([DbFind ("^" ++ prefix incomingApiKey) true;
          BcryptCompare incomingApiKey (doc_hashedApiKey doc)
            (bcrypt_compareSync incomingApiKey (doc_hashedApiKey doc))],
         Logged (if bcrypt_compareSync incomingApiKey (doc_hashedApiKey doc)
                 then Success else BcryptFailed))
      else ([DbFind ("^" ++ prefix incomingApiKey) false], Logged RegexFailed)) /\
  (forall apiKey salt rest,
      Uuid.is_v4 apiKey = true ->
      let incomingApiKey := "................." ++ rest in
      let doc := mockDbApiKey Salt bcrypt_hash apiKey salt in
      fst (validate bcrypt_compareSync incomingApiKey doc) =
      [DbFind "^................." true;
       BcryptCompare incomingApiKey (doc_hashedApiKey doc)
         (bcrypt_compareSync incomingApiKey (doc_hashedApiKey doc))]).
Proof.
  assert (G : forall incomingApiKey doc,
      plainOrDot (prefix incomingApiKey) = true ->
      validate bcrypt_compareSync incomingApiKey doc =
      if startsWithDotted (doc_apiKey doc) (prefix incomingApiKey) then
        ([DbFind ("^" ++ prefix incomingApiKey) true;
          BcryptCompare incomingApiKey (doc_hashedApiKey doc)
            (bcrypt_compareSync incomingApiKey (doc_hashedApiKey doc))],
         Logged (if bcrypt_compareSync incomingApiKey (doc_hashedApiKey doc)
                 then Success else BcryptFailed))
      else ([DbFind ("^" ++ prefix incomingApiKey) false], Logged RegexFailed)).
  { intros incomingApiKey doc Hp. unfold validate, regex.
    rewrite (DottedFacts.new_anchored_dotted _ Hp).
    now rewrite DottedFacts.test_anchored, DottedFacts.run_dotted. }
  split; [exact G|].
  intros apiKey salt rest H incomingApiKey doc.
  assert (E : prefix incomingApiKey = ".................")
    by apply (JsFacts.substr_app "................." rest).
  rewrite G by (rewrite E; reflexivity). rewrite E.
  subst doc. cbn [mockDbApiKey doc_apiKey]. unfold storedApiKey.
  rewrite DottedFacts.startsWithDotted_dots; [reflexivity|reflexivity| |].
  - apply JsFacts.every_substr.
    apply (DottedFacts.fits_every _ Uuid.template);
      [exact DottedFacts.hex_not_terminator|exact DottedFacts.variant_not_terminator
       |reflexivity|exact H].
  - pose proof (length_prefix_v4 _ H) as L. unfold prefix in L. now rewrite L.
Qed.

Lemma dots_are_wildcards_witness :
  plainOrDot (prefix "123e....-e89b-42d3-a456-426614174000") = true /\
  Uuid.is_v4 sampleKey = true /\
  validate BcryptDouble.compareSync "123e....-e89b-42d3-a456-426614174000" sampleDoc
  = ([DbFind "^123e....-e89b-42d" true;
      BcryptCompare "123e....-e89b-42d3-a456-426614174000"
        (doc_hashedApiKey sampleDoc) false],
     Logged BcryptFailed) /\
  fst (validate BcryptDouble.compareSync ".................x" sampleDoc)
  = [DbFind "^................." true;
     BcryptCompare ".................x" (doc_hashedApiKey sampleDoc) false].
Proof.
  split; [reflexivity|]. split; [reflexivity|].
  destruct (dots_are_wildcards unit BcryptDouble.hash BcryptDouble.compareSync)
    as [G D].
  split.
  - exact (G "123e....-e89b-42d3-a456-426614174000" sampleDoc eq_refl).
  - exact (D sampleKey tt "x" eq_refl).
Defined.



Lemma length_substr_min (s : string) (n : nat) :
  String.length (Js.substr s 0 n) = Nat.min (String.length s) n.
Proof.
  unfold Js.substr. revert n; induction s as [|c s IH]; intros [|n]; simpl; auto.
Qed.

Lemma includes_startsWith (s t : string) :
  Js.startsWith s t = true -> Js.includes s t = true.
Proof. intros H. destruct s; cbn [Js.includes]; now rewrite H. Qed.

(** X14. The masked value of any key, generated or not, has the key's first
    17 characters, or all of them when there are fewer, and 18 asterisks
    after them.  A key of at most 17 characters is therefore stored in full:
    the masked value contains it. *)
Theorem storedApiKey_shape (apiKey : string) :
  String.length (storedApiKey apiKey) = Nat.min (String.length apiKey) 17 + 18 /\
  (String.length apiKey <= 17 ->
   storedApiKey apiKey = apiKey ++ "******************" /\
   Js.includes (storedApiKey apiKey) apiKey = true).
Proof.
  split.
  - unfold storedApiKey. now rewrite JsFacts.length_app, length_substr_min.
  - intros L. unfold storedApiKey. rewrite JsFacts.substr_short by exact L.
    split; [reflexivity|]. apply includes_startsWith, JsFacts.startsWith_app.
Qed.

Lemma storedApiKey_shape_witness :
  String.length "abc" <= 17 /\
  storedApiKey "abc" = "abc******************" /\
  Js.includes (storedApiKey "abc") "abc" = true.
Proof.
  assert (L : String.length "abc" <= 17) by (simpl; lia).
  split; [exact L|]. exact (proj2 (storedApiKey_shape "abc") L).
Defined.
